(** * HiFly drone: the PID tracking action server, its action client and the
      frame queue of the inference node

    Shallow embedding of
    - [ros_atlas/pidTracker/action_server.py] (class [PIDActionServer]),
    - [ros_atlas/pidTracker/action_client.py] (the SMACH plan),
    - [ros_atlas/hifly_base/BaseInference.py] (class [BaseInferenceNode]),
    and the properties of the tracking control subsystem that are stated
    about them.

    Python [float]s are IEEE 754 binary64 numbers; they are modelled with
    the executable specification [SpecFloat] of the standard library
    (precision 53, maximal exponent 1024, round to nearest even). *)

From Stdlib Require Import ZArith List String Bool Lia.
From Stdlib Require Import Floats.SpecFloat.
Import ListNotations.

Local Open Scope Z_scope.

(** ** Python floats *)

Module PyFloat.

Definition prec : Z := 53.
Definition emax : Z := 1024.

Definition float : Type := spec_float.

Definition fadd : float -> float -> float := SFadd prec emax.
Definition fsub : float -> float -> float := SFsub prec emax.
Definition fmul : float -> float -> float := SFmul prec emax.
Definition fdiv : float -> float -> float := SFdiv prec emax.

(** [float(n)] for a Python [int]: the nearest binary64 number. *)
Definition of_int (n : Z) : float := binary_normalize prec emax n 0 false.

(** Comparisons; every comparison with a NaN is false, except [!=]. *)
Definition feq (x y : float) : bool := SFeqb x y.
Definition fne (x y : float) : bool := negb (SFeqb x y).
Definition flt (x y : float) : bool := SFltb x y.
Definition fgt (x y : float) : bool := SFltb y x.
Definition fle (x y : float) : bool := SFleb x y.

Definition is_nan (x : float) : bool :=
  match x with S754_nan => true | _ => false end.

Definition is_finite (x : float) : bool :=
  match x with S754_zero _ | S754_finite _ _ _ => true | _ => false end.

Definition is_zero (x : float) : bool :=
  match x with S754_zero _ => true | _ => false end.

(** The significand of a finite number fits the 53 bits of the format. *)
Definition mant_ok (x : float) : Prop :=
  match x with
  | S754_finite _ m _ => Z.pos m < 2 ^ prec
  | _ => True
  end.

(** The literal [0.1]: the binary64 number nearest to one tenth. *)
Definition f0_1 : float := Eval vm_compute in fdiv (of_int 1) (of_int 10).

Definition nan : float := S754_nan.
Definition inf : float := S754_infinity false.

End PyFloat.

Import PyFloat.

(** ** Python exceptions, results and the monad of the server's methods *)

Inductive exn : Type :=
| AttributeError (attr : string)   (* read of an attribute never assigned *)
| ValueError                       (* [int(nan)] *)
| OverflowError                    (* [int(inf)] *)
| DriverError.                     (* raised by [connect_uav()] or [streamon()] *)

Inductive result (A : Type) : Type :=
| Ok (a : A)
| Raise (e : exn).

Arguments Ok {A} a.
Arguments Raise {A} e.

(** The vehicle handle returned by [connect_uav()]. *)
Inductive Uav : Type := Tello.

(** Actuator command of one TRACK tick, the four values of the
    "[Tracking] Actuator command" log line (and of [send_rc_control]). *)
Record command : Type := {
  left_right_velocity : Z;
  forward_backward_velocity : Z;
  up_down_velocity : Z;
  yaw_velocity : Z
}.

(** Calls the methods make to their collaborators, in program order. *)
Inductive event : Type :=
| Loginfo (text : string)               (* [rospy.loginfo] *)
| Loginfo_tracking (cmd : command)      (* [rospy.loginfo] of a TRACK tick *)
| Print_trying_again (elapsed : float)  (* [print(f"Trying again... ...")] *)
| Set_preempted                         (* [_init_sas.set_preempted()] *)
| Set_aborted                           (* [_init_sas.set_aborted()] *)
| Set_succeeded                         (* [_init_sas.set_succeeded()] *)
| Connect_uav                           (* [connect_uav()] *)
| Streamon.                             (* [_uav.streamon()] *)

(** Modelled from the spec: the message type [ProcessVar] (package
    [custom_ros_msgs]) is not among the sources; its fields are those of
    DetectionResult, [{ area: float >= 0, center_x: float, center_y: float }]. *)
Record ProcessVar : Type := {
  area : float;
  cx : float;
  cy : float
}.


(** The attributes of a [PIDActionServer] object.  [_area] is created by the
    first detection ([process_var_sub_cb]) and [connect_start] by
    [execute_init_cb]; [_action_name] is read by [execute_init_cb] and
    assigned nowhere: these three are [None] while the attribute does not
    exist.  [_uav] holds Python's [None] until the vehicle is connected.
    The errors start as the [int] 0, which behaves as the float 0.0 in every
    operation applied to them. *)
Record PIDActionServer : Type := {
  app_name : string;
  _action_name : option string;
  _uav : option Uav;
  setpoint_area : Z * Z;
  setpoint_center : Z * Z;
  pid_input : float * float * float;
  _is_search : bool;
  _area : option float;
  _x_err : float;
  _y_err : float;
  _prev_x_err : float;
  _prev_y_err : float;
  connect_start : option float
}.

Definition set_is_search (b : bool) (s : PIDActionServer) : PIDActionServer :=
  {| app_name := app_name s; _action_name := _action_name s; _uav := _uav s;
     setpoint_area := setpoint_area s; setpoint_center := setpoint_center s;
     pid_input := pid_input s; _is_search := b; _area := _area s;
     _x_err := _x_err s; _y_err := _y_err s;
     _prev_x_err := _prev_x_err s; _prev_y_err := _prev_y_err s;
     connect_start := connect_start s |}.

Definition set_area (a : float) (s : PIDActionServer) : PIDActionServer :=
  {| app_name := app_name s; _action_name := _action_name s; _uav := _uav s;
     setpoint_area := setpoint_area s; setpoint_center := setpoint_center s;
     pid_input := pid_input s; _is_search := _is_search s; _area := Some a;
     _x_err := _x_err s; _y_err := _y_err s;
     _prev_x_err := _prev_x_err s; _prev_y_err := _prev_y_err s;
     connect_start := connect_start s |}.

Definition set_x_err (v : float) (s : PIDActionServer) : PIDActionServer :=
  {| app_name := app_name s; _action_name := _action_name s; _uav := _uav s;
     setpoint_area := setpoint_area s; setpoint_center := setpoint_center s;
     pid_input := pid_input s; _is_search := _is_search s; _area := _area s;
     _x_err := v; _y_err := _y_err s;
     _prev_x_err := _prev_x_err s; _prev_y_err := _prev_y_err s;
     connect_start := connect_start s |}.

Definition set_y_err (v : float) (s : PIDActionServer) : PIDActionServer :=
  {| app_name := app_name s; _action_name := _action_name s; _uav := _uav s;
     setpoint_area := setpoint_area s; setpoint_center := setpoint_center s;
     pid_input := pid_input s; _is_search := _is_search s; _area := _area s;
     _x_err := _x_err s; _y_err := v;
     _prev_x_err := _prev_x_err s; _prev_y_err := _prev_y_err s;
     connect_start := connect_start s |}.

Definition set_uav (u : option Uav) (s : PIDActionServer) : PIDActionServer :=
  {| app_name := app_name s; _action_name := _action_name s; _uav := u;
     setpoint_area := setpoint_area s; setpoint_center := setpoint_center s;
     pid_input := pid_input s; _is_search := _is_search s; _area := _area s;
     _x_err := _x_err s; _y_err := _y_err s;
     _prev_x_err := _prev_x_err s; _prev_y_err := _prev_y_err s;
     connect_start := connect_start s |}.

Definition set_connect_start (t : float) (s : PIDActionServer) : PIDActionServer :=
  {| app_name := app_name s; _action_name := _action_name s; _uav := _uav s;
     setpoint_area := setpoint_area s; setpoint_center := setpoint_center s;
     pid_input := pid_input s; _is_search := _is_search s; _area := _area s;
     _x_err := _x_err s; _y_err := _y_err s;
     _prev_x_err := _prev_x_err s; _prev_y_err := _prev_y_err s;
     connect_start := Some t |}.

(** A method is a function of the object: it returns normally or raises,
    leaves the object in a new state, and makes a sequence of calls. *)
Definition M (A : Type) : Type :=
  PIDActionServer -> result A * PIDActionServer * list event.

Definition ret {A : Type} (a : A) : M A := fun s => (Ok a, s, []).

Definition bind {A B : Type} (c : M A) (k : A -> M B) : M B :=
  fun s =>
    match c s with
    | (Ok a, s1, t1) =>
        match k a s1 with
        | (r, s2, t2) => (r, s2, t1 ++ t2)
        end
    | (Raise e, s1, t1) => (Raise e, s1, t1)
    end.

Definition raise {A : Type} (e : exn) : M A := fun s => (Raise e, s, []).

Definition lift {A : Type} (r : result A) : M A := fun s => (r, s, []).

(** [self.attr] for an attribute set by [__init__]. *)
Definition gets {A : Type} (f : PIDActionServer -> A) : M A :=
  fun s => (Ok (f s), s, []).

(** [self.attr] for an attribute that may not exist yet. *)
Definition getattr {A : Type} (name : string)
    (f : PIDActionServer -> option A) : M A :=
  fun s =>
    match f s with
    | Some a => (Ok a, s, [])
    | None => (Raise (AttributeError name), s, [])
    end.

(** [self.attr = v]. *)
Definition assign (upd : PIDActionServer -> PIDActionServer) : M unit :=
  fun s => (Ok tt, upd s, []).

Definition emit (e : event) : M unit := fun s => (Ok tt, s, [e]).

Declare Scope py_scope.
Delimit Scope py_scope with py.
Notation "x <- c ;; k" := (bind c (fun x => k))
  (at level 61, c at next level, right associativity) : py_scope.
Notation "c ;; k" := (bind c (fun _ => k))
  (at level 61, right associativity) : py_scope.
Local Open Scope py_scope.

Definition result_of {A : Type} (r : result A * PIDActionServer * list event)
  : result A := fst (fst r).
Definition state_after {A : Type} (r : result A * PIDActionServer * list event)
  : PIDActionServer := snd (fst r).
Definition calls {A : Type} (r : result A * PIDActionServer * list event)
  : list event := snd r.

(** ** [PIDActionServer.__init__] *)

Definition init (name : string) : PIDActionServer :=
  {| app_name := name;
     _action_name := None;
     _uav := None;
     setpoint_area := (20000, 100000);
     setpoint_center := (480, 360);
     pid_input := (f0_1, f0_1, f0_1);
     _is_search := true;
     _area := None;
     _x_err := of_int 0;
     _y_err := of_int 0;
     _prev_x_err := of_int 0;
     _prev_y_err := of_int 0;
     connect_start := None |}.

(** ** [pid]: the output signal equation *)

(** [pid_input[0]], [pid_input[1]] and [pid_input[2]]. *)
Definition item0 (g : float * float * float) : float := fst (fst g).
Definition item1 (g : float * float * float) : float := snd (fst g).
Definition item2 (g : float * float * float) : float := snd g.

Definition pid (error prev_error : float) : M float :=
  k0 <- gets (fun self => item0 (pid_input self)) ;;
  k1 <- gets (fun self => item1 (pid_input self)) ;;
  k2 <- gets (fun self => item2 (pid_input self)) ;;
  ret (fadd (fadd (fmul k0 error) (fmul k1 (fsub error prev_error)))
            (fmul k2 (fsub error prev_error))).

(** The contract of PIDController, as the specification words it:
    [compute(error, prev_error, gains)] is
    [kp*error + kd1*(error-prev_error) + kd2*(error-prev_error)]. *)
Definition compute (error prev_error : float) (gains : float * float * float)
  : float :=
  let '(kp, kd1, kd2) := gains in
  fadd (fadd (fmul kp error) (fmul kd1 (fsub error prev_error)))
       (fmul kd2 (fsub error prev_error)).

(** ** [process_var_sub_cb]: the detection feedback handler *)

Definition process_var_sub_cb (msg : ProcessVar) : M unit :=
  if feq (area msg) (of_int 0) then
    assign (set_is_search true) ;;
    px <- gets _prev_x_err ;;
    assign (set_x_err px) ;;
    py <- gets _prev_y_err ;;
    assign (set_y_err py) ;;
    ret tt
  else
    assign (set_is_search false) ;;
    assign (set_area (area msg)) ;;
    c <- gets setpoint_center ;;
    assign (set_x_err (fsub (cx msg) (of_int (fst c)))) ;;
    c <- gets setpoint_center ;;
    assign (set_y_err (fsub (of_int (snd c)) (cy msg))) ;;
    ret tt.

(** ** [numpy.clip] and [int] *)

(** [np.clip(x, lo, hi)] on a scalar is [minimum(maximum(x, lo), hi)];
    a NaN argument comes out as NaN. *)
Definition np_clip (x lo hi : float) : float :=
  if is_nan x then x
  else
    let y := if flt x lo then lo else x in
    if fgt y hi then hi else y.

(** [int(x)]: truncation towards zero; NaN and the infinities raise. *)
Definition py_int (x : float) : result Z :=
  match x with
  | S754_nan => Raise ValueError
  | S754_infinity _ => Raise OverflowError
  | S754_zero _ => Ok 0
  | S754_finite s m e => Ok (cond_Zopp s (Z.shiftl (Z.pos m) e))
  end.

(** ** [execute_track_cb]: the body of the TRACK loop, one tick *)

Definition execute_track_body : M command :=
  let forward_backward_velocity := 0 in
  let left_right_velocity := 0 in
  let up_down_velocity := 0 in
  let yaw_velocity := 0 in
  x_err <- gets _x_err ;;
  yaw_velocity <-
    (if fne x_err (of_int 0) then
       e <- gets _x_err ;;
       p <- gets _prev_x_err ;;
       v <- pid e p ;;
       lift (py_int (np_clip v (of_int (-100)) (of_int 100)))
     else ret yaw_velocity) ;;
  y_err <- gets _y_err ;;
  up_down_velocity <-
    (if fne y_err (of_int 0) then
       e <- gets _y_err ;;
       p <- gets _prev_y_err ;;
       v <- pid e p ;;
       lift (py_int (np_clip (fmul (of_int 3) v) (of_int (-50)) (of_int 50)))
     else ret up_down_velocity) ;;
  a <- getattr "_area" _area ;;
  sp <- gets setpoint_area ;;
  let forward_backward_velocity :=
    if fgt a (of_int (fst sp)) && flt a (of_int (snd sp)) then 0
    else if flt a (of_int (fst sp)) then 20
    else if fgt a (of_int (snd sp)) then -20
    else forward_backward_velocity in
  let cmd := {| left_right_velocity := left_right_velocity;
                forward_backward_velocity := forward_backward_velocity;
                up_down_velocity := up_down_velocity;
                yaw_velocity := yaw_velocity |} in
  emit (Loginfo_tracking cmd) ;;
  ret cmd.

(** [execute_search_cb]: the body of the SEARCH loop is [pass]. *)
Definition execute_search_body : M unit := ret tt.

(** One iteration of [execute_main_cb]'s loops: the flag selects the loop,
    whose body runs once. *)
Definition execute_main_tick : M (option command) :=
  b <- gets _is_search ;;
  if b then execute_search_body ;; ret None
  else cmd <- execute_track_body ;; ret (Some cmd).

(** The public operations on a running server: a detection result delivered
    to the subscriber callback, or a tick of the control loop. *)
Inductive op : Type :=
| Feedback (msg : ProcessVar)
| Tick.

Definition step (o : op) (s : PIDActionServer) : PIDActionServer :=
  match o with
  | Feedback msg => state_after (process_var_sub_cb msg s)
  | Tick => state_after (execute_main_tick s)
  end.

Definition run (ops : list op) (s : PIDActionServer) : PIDActionServer :=
  fold_left (fun s o => step o s) ops s.


(** ** [execute_init_cb]: the CONNECT stage *)

(** What one call of [connect_uav()] (module [ros_atlas.utils.uav_utils], not
    among the sources) can do as seen from the caller: raise, return [None],
    or return a vehicle, whose [streamon()] then returns or raises; [t] is
    the clock read into [connect_start]. *)
Inductive connect_result : Type :=
| Connect_raises
| Connect_none
| Connect_ok (u : Uav) (t : float) (streamon_ok : bool).

(** What one iteration of the loop reads from outside: [time.time()],
    [is_preempt_requested()] and the behaviour of [connect_uav()]. *)
Record probe : Type := {
  clock : float;
  preempt_requested : bool;
  connect : connect_result
}.

Definition deadline : Z := 30.

Definition init_iteration (start_time : float) (p : probe) : M unit :=
  let now := clock p in
  (if preempt_requested p then
     n <- getattr "_action_name" _action_name ;;
     emit (Loginfo (n ++ " Preempted")) ;;
     emit Set_preempted
   else ret tt) ;;
  (if fgt (fsub now start_time) (of_int deadline) then
     n <- getattr "_action_name" _action_name ;;
     emit (Loginfo (n ++ " Aborted")) ;;
     emit Set_aborted
   else ret tt) ;;
  emit Connect_uav ;;
  match connect p with
  | Connect_raises =>
      emit (Print_trying_again (fsub now start_time)) ;;
      raise DriverError
  | Connect_none =>
      assign (set_uav None)
  | Connect_ok u t streamon_ok =>
      assign (set_uav (Some u)) ;;
      assign (set_connect_start t) ;;
      emit Streamon ;;
      if streamon_ok then
        emit (Loginfo "@init_cb: Tello Drone connection established.") ;;
        emit Set_succeeded
      else
        emit (Print_trying_again (fsub now start_time)) ;;
        raise DriverError
  end.

(** How a run of the loop over a finite script of probes ends: the callback
    returned, or the script is used up with the loop still running. *)
Inductive status : Type :=
| Returned
| Running.

Fixpoint execute_init_loop (start_time : float) (script : list probe)
  : M status :=
  u <- gets _uav ;;
  match u with
  | Some _ => ret Returned
  | None =>
      match script with
      | [] => ret Running
      | p :: rest =>
          init_iteration start_time p ;;
          execute_init_loop start_time rest
      end
  end.

Definition execute_init_cb (start_time : float) (script : list probe)
  : M status :=
  execute_init_loop start_time script.

(** Number of calls of [connect_uav()] in a sequence of calls. *)
Definition attempts (t : list event) : nat :=
  List.length (filter (fun e => match e with Connect_uav => true | _ => false end) t).

Definition is_set_preempted (e : event) : bool :=
  match e with Set_preempted => true | _ => false end.

Definition is_set_aborted (e : event) : bool :=
  match e with Set_aborted => true | _ => false end.

(** ** The SMACH plan of the action client *)

Module Smach.

(** Outcomes of a [SimpleActionState]. *)
Inductive outcome : Type := succeeded | aborted | preempted.

Definition outcome_eqb (a b : outcome) : bool :=
  match a, b with
  | succeeded, succeeded | aborted, aborted | preempted, preempted => true
  | _, _ => false
  end.

(** A [Concurrence] container as the client builds it: its outcomes, the
    default outcome, the outcome map (container outcome, then the child
    outcomes it requires, by child label) and the labels of the children
    added to it. *)
Record Concurrence : Type := {
  outcomes : list outcome;
  default_outcome : outcome;
  outcome_map : list (outcome * list (string * outcome));
  children : list string
}.

Definition add (label : string) (c : Concurrence) : Concurrence :=
  {| outcomes := outcomes c; default_outcome := default_outcome c;
     outcome_map := outcome_map c; children := children c ++ [label] |}.

(** The outcomes the children terminated with, by label. *)
Definition child_outcomes : Type := list (string * outcome).

Fixpoint lookup (label : string) (co : child_outcomes) : option outcome :=
  match co with
  | [] => None
  | (l, o) :: rest => if String.eqb l label then Some o else lookup label rest
  end.

(** An entry of the outcome map is satisfied when every child it names
    terminated with the outcome it asks for. *)
Definition satisfied (required : list (string * outcome))
    (co : child_outcomes) : bool :=
  forallb (fun lo =>
             match lookup (fst lo) co with
             | Some o => outcome_eqb o (snd lo)
             | None => false
             end) required.

(** The outcome of the container once its children have terminated: the
    default outcome, replaced by the outcome of each satisfied entry of
    the outcome map in turn. *)
Definition execute (c : Concurrence) (co : child_outcomes) : outcome :=
  fold_left (fun out entry => if satisfied (snd entry) co then fst entry else out)
            (outcome_map c) (default_outcome c).

End Smach.

(** [sm_concurrent], with the two states added to it. *)
Definition sm_concurrent : Smach.Concurrence :=
  Smach.add "CONTROL_MOTOR"
    (Smach.add "PUBLISH"
       {| Smach.outcomes := [Smach.succeeded; Smach.aborted];
          Smach.default_outcome := Smach.succeeded;
          Smach.outcome_map := [(Smach.aborted, [("PUBLISH"%string, Smach.aborted)])];
          Smach.children := [] |}).

(** The composite outcome when PUBLISH (the STREAM activity) and
    CONTROL_MOTOR (the CONTROL activity) terminate with the given outcomes. *)
Definition composite (publish control : Smach.outcome) : Smach.outcome :=
  Smach.execute sm_concurrent
    [("PUBLISH"%string, publish); ("CONTROL_MOTOR"%string, control)].

(** ** The frame queue of [BaseInferenceNode] *)

Module PyQueue.

(** [queue.Queue(maxsize)]: the items, oldest first. *)
Record Queue (A : Type) : Type := {
  maxsize : Z;
  items : list A
}.

Arguments maxsize {A} q.
Arguments items {A} q.

Definition qsize {A : Type} (q : Queue A) : Z := Z.of_nat (List.length (items q)).

Definition empty {A : Type} (q : Queue A) : bool := qsize q =? 0.

Definition full {A : Type} (q : Queue A) : bool :=
  (0 <? maxsize q) && (maxsize q <=? qsize q).

(** [put] appends; on a full queue it blocks ([None]). *)
Definition put {A : Type} (q : Queue A) (x : A) : option (Queue A) :=
  if full q then None
  else Some {| maxsize := maxsize q; items := items q ++ [x] |}.

(** [get] takes the oldest item; on an empty queue it blocks ([None]). *)
Definition get {A : Type} (q : Queue A) : option (A * Queue A) :=
  match items q with
  | [] => None
  | x :: rest => Some (x, {| maxsize := maxsize q; items := rest |})
  end.

End PyQueue.

(** An incoming image message: the time stamp of its header and what
    [CvBridge().imgmsg_to_cv2] makes of it ([None] when that raises
    [CvBridgeError]). *)
Record Imgmsg : Type := {
  stamp : Z;
  decoded : option (list Z)
}.

(** A queued frame: the tuple [(rgb_img, timestamp)]. *)
Definition frame : Type := (list Z * Z)%type.

Definition queue_capacity : Z := 5.

(** [BaseInferenceNode.__init__]: [self.image_queue = Queue(maxsize=5)]. *)
Definition image_queue_init : PyQueue.Queue frame :=
  {| PyQueue.maxsize := queue_capacity; PyQueue.items := [] |}.

(** How a call of [image_callback] ends. *)
Inductive callback_end : Type :=
| Enqueued (f : frame)
| Dropped (f : frame)
| Blocked
| CvBridgeError.

(** [image_callback]: convert, then put unless the queue is full. *)
Definition image_callback (q : PyQueue.Queue frame) (imgmsg : Imgmsg)
  : PyQueue.Queue frame * callback_end :=
  let timestamp := stamp imgmsg in
  match decoded imgmsg with
  | None => (q, CvBridgeError)
  | Some rgb_img =>
      if negb (PyQueue.full q) then
        match PyQueue.put q (rgb_img, timestamp) with
        | Some q' => (q', Enqueued (rgb_img, timestamp))
        | None => (q, Blocked)
        end
      else (q, Dropped (rgb_img, timestamp))
  end.

(** One iteration of the loop of [run]: the consumer takes a frame when the
    queue is not empty. *)
Definition run_iteration (q : PyQueue.Queue frame)
  : PyQueue.Queue frame * option frame :=
  if negb (PyQueue.empty q) then
    match PyQueue.get q with
    | Some (f, q') => (q', Some f)
    | None => (q, None)
    end
  else (q, None).

(** The node under a schedule of producer callbacks and consumer iterations. *)
Inductive node_event : Type :=
| Arrive (imgmsg : Imgmsg)
| Spin.

Record node : Type := {
  image_queue : PyQueue.Queue frame;
  consumed : list frame;     (* frames the consumer took, oldest first *)
  dropped : list frame;      (* frames refused by a full queue *)
  blocked : bool             (* a [put] found the queue full *)
}.

Definition node_init : node :=
  {| image_queue := image_queue_init; consumed := []; dropped := [];
     blocked := false |}.

Definition node_step (n : node) (e : node_event) : node :=
  match e with
  | Arrive imgmsg =>
      match image_callback (image_queue n) imgmsg with
      | (q, Dropped f) =>
          {| image_queue := q; consumed := consumed n;
             dropped := dropped n ++ [f]; blocked := blocked n |}
      | (q, Blocked) =>
          {| image_queue := q; consumed := consumed n;
             dropped := dropped n; blocked := true |}
      | (q, _) =>
          {| image_queue := q; consumed := consumed n;
             dropped := dropped n; blocked := blocked n |}
      end
  | Spin =>
      match run_iteration (image_queue n) with
      | (q, Some f) =>
          {| image_queue := q; consumed := consumed n ++ [f];
             dropped := dropped n; blocked := blocked n |}
      | (q, None) =>
          {| image_queue := q; consumed := consumed n;
             dropped := dropped n; blocked := blocked n |}
      end
  end.

Definition node_run (evs : list node_event) (n : node) : node :=
  fold_left node_step evs n.

(** The frames offered to the queue by a schedule, in arrival order. *)
Fixpoint offered (evs : list node_event) : list frame :=
  match evs with
  | [] => []
  | Arrive imgmsg :: rest =>
      match decoded imgmsg with
      | Some rgb_img => (rgb_img, stamp imgmsg) :: offered rest
      | None => offered rest
      end
  | Spin :: rest => offered rest
  end.

(** [Merge l1 l2 l]: [l] interleaves [l1] and [l2], keeping the order of each. *)
Inductive Merge {A : Type} : list A -> list A -> list A -> Prop :=
| Merge_nil : Merge [] [] []
| Merge_left x l1 l2 l : Merge l1 l2 l -> Merge (x :: l1) l2 (x :: l)
| Merge_right x l1 l2 l : Merge l1 l2 l -> Merge l1 (x :: l2) (x :: l).

(** ** Notions used in the statements *)

(** The proportional gain, [pid_input[0]]. *)
Definition kp_of (s : PIDActionServer) : float := item0 (pid_input s).

(** The gains are numbers: none is an infinity or a NaN. *)
Definition finite_gains (g : float * float * float) : Prop :=
  let '(kp, kd1, kd2) := g in
  is_finite kp = true /\ is_finite kd1 = true /\ is_finite kd2 = true.

(** The gains are positive numbers, as the three 0.1 of [__init__] are. *)
Definition positive_gains (g : float * float * float) : Prop :=
  let '(kp, kd1, kd2) := g in
  (exists m e, kp = S754_finite false m e) /\
  (exists m e, kd1 = S754_finite false m e) /\
  (exists m e, kd2 = S754_finite false m e).

(** The signals a TRACK tick clamps: the PID output on the yaw axis, and
    three times the PID output on the vertical axis. *)
Definition yaw_signal (s : PIDActionServer) : float :=
  compute (_x_err s) (_prev_x_err s) (pid_input s).

Definition vertical_signal (s : PIDActionServer) : float :=
  fmul (of_int 3) (compute (_y_err s) (_prev_y_err s) (pid_input s)).

(** The yaw and vertical commands of a tick, as the two guarded branches
    compute them. *)
Definition yaw_of (s : PIDActionServer) : result Z :=
  if fne (_x_err s) (of_int 0)
  then py_int (np_clip (yaw_signal s) (of_int (-100)) (of_int 100))
  else Ok 0.

Definition up_down_of (s : PIDActionServer) : result Z :=
  if fne (_y_err s) (of_int 0)
  then py_int (np_clip (vertical_signal s) (of_int (-50)) (of_int 50))
  else Ok 0.

(** The forward command for a bounding-box area, as the three-way branch
    assigns it. *)
Definition forward_of (sp : Z * Z) (a : float) : Z :=
  if fgt a (of_int (fst sp)) && flt a (of_int (snd sp)) then 0
  else if flt a (of_int (fst sp)) then 20
  else if fgt a (of_int (snd sp)) then -20
  else 0.

(** The value [pid] returns, read off the object. *)
Definition pid_value (error prev_error : float) (s : PIDActionServer) : float :=
  fadd (fadd (fmul (item0 (pid_input s)) error)
             (fmul (item1 (pid_input s)) (fsub error prev_error)))
       (fmul (item2 (pid_input s)) (fsub error prev_error)).

(** ** Sample objects and messages *)

(** The server as [__main__] creates it. *)
Definition tracker : PIDActionServer := init "pid_tracker".

(** A detection five pixels right of and sixty pixels above the setpoint
    centre, at an area inside the setpoint band. *)
Definition detection : ProcessVar :=
  {| area := of_int 50000; cx := of_int 485; cy := of_int 300 |}.

(** "No detection this cycle". *)
Definition no_detection : ProcessVar :=
  {| area := of_int 0; cx := of_int 0; cy := of_int 0 |}.

(** The server after the first detection. *)
Definition tracking : PIDActionServer :=
  state_after (process_var_sub_cb detection tracker).

(** Neither the feedback handler nor a tick touches the configuration or
    the previous errors. *)
Definition same_config (s s' : PIDActionServer) : Prop :=
  app_name s' = app_name s /\
  _action_name s' = _action_name s /\
  _uav s' = _uav s /\
  setpoint_area s' = setpoint_area s /\
  setpoint_center s' = setpoint_center s /\
  pid_input s' = pid_input s /\
  _prev_x_err s' = _prev_x_err s /\
  _prev_y_err s' = _prev_y_err s /\
  connect_start s' = connect_start s.


(** What the node keeps true under every schedule. *)
Record node_inv (evs : list node_event) (n : node) : Prop := {
  inv_maxsize : PyQueue.maxsize (image_queue n) = queue_capacity;
  inv_bound : PyQueue.qsize (image_queue n) <= queue_capacity;
  inv_blocked : blocked n = false;
  inv_merge :
    Merge (consumed n ++ PyQueue.items (image_queue n)) (dropped n) (offered evs)
}.

(** The tracking server with another area, and the forward command of its
    tick. *)
Definition with_area (n : Z) : PIDActionServer := set_area (of_int n) tracking.

Definition forward_at (n : Z) : result Z :=
  match result_of (execute_track_body (with_area n)) with
  | Ok cmd => Ok (forward_backward_velocity cmd)
  | Raise e => Raise e
  end.

(** The tracking server with infinite errors. *)
Definition extreme : PIDActionServer :=
  set_y_err (S754_infinity true) (set_x_err inf tracking).

(** Seven frames arriving in a burst, then two consumer iterations. *)
Definition arrival (t : Z) : Imgmsg := {| stamp := t; decoded := Some [t] |}.

Definition burst : list node_event :=
  map (fun t => Arrive (arrival t)) [1; 2; 3; 4; 5; 6; 7] ++ [Spin; Spin].

(** Probes of the CONNECT loop: a call of [connect_uav()] that raises one
    second in, one that succeeds, and a preempt found pending after the
    deadline. *)
Definition failing : probe :=
  {| clock := of_int 1; preempt_requested := false; connect := Connect_raises |}.

Definition succeeding : probe :=
  {| clock := of_int 2; preempt_requested := false;
     connect := Connect_ok Tello (of_int 2) true |}.

Definition late_preempt : probe :=
  {| clock := of_int 31; preempt_requested := true; connect := Connect_none |}.

(** ** Further notions: signs, loops, the CONNECT attempt, the threads of
    the queue, the client plan, the STREAM activity and the life cycle of
    the inference node *)

(** The sign of a number; a NaN has none. *)
Definition has_sign (s : bool) (x : float) : Prop :=
  match x with
  | S754_zero s' | S754_infinity s' | S754_finite s' _ _ => s' = s
  | S754_nan => False
  end.

Definition sign_of (x : float) : bool :=
  match x with
  | S754_zero s | S754_infinity s | S754_finite s _ _ => s
  | S754_nan => false
  end.



Fixpoint execute_search_cb (fuel : nat) : M status :=
  b <- gets _is_search ;;
  if b then
    match fuel with
    | O => ret Running
    | S fuel' => execute_search_body ;; execute_search_cb fuel'
    end
  else ret Returned.

Definition history : list op := [Feedback no_detection; Tick; Feedback detection; Tick].

(** A probe at which no preempt is pending and the deadline has not passed. *)
Definition quiet (start_time : float) (p : probe) : Prop :=
  preempt_requested p = false /\
  fgt (fsub (clock p) start_time) (of_int deadline) = false.

Definition established : event :=
  Loginfo "@init_cb: Tello Drone connection established.".

Definition is_set_succeeded (e : event) : bool :=
  match e with Set_succeeded => true | _ => false end.

(** The part of an iteration of the CONNECT loop inside [try]: the call of
    [connect_uav()] and what follows it. *)
Definition attempt (start_time : float) (p : probe) (s : PIDActionServer)
  : result unit * PIDActionServer * list event :=
  match connect p with
  | Connect_raises =>
      (Raise DriverError, s,
       [Connect_uav; Print_trying_again (fsub (clock p) start_time)])
  | Connect_none => (Ok tt, set_uav None s, [Connect_uav])
  | Connect_ok u t true =>
      (Ok tt, set_connect_start t (set_uav (Some u) s),
       [Connect_uav; Streamon; established; Set_succeeded])
  | Connect_ok u t false =>
      (Raise DriverError, set_connect_start t (set_uav (Some u) s),
       [Connect_uav; Streamon; Print_trying_again (fsub (clock p) start_time)])
  end.

(** The calls the two checks before [try] make when [_action_name] is [n]. *)
Definition announcements (n : string) (start_time : float) (p : probe)
  : list event :=
  (if preempt_requested p
   then [Loginfo (n ++ " Preempted"); Set_preempted] else [])
  ++ (if fgt (fsub (clock p) start_time) (of_int deadline)
      then [Loginfo (n ++ " Aborted"); Set_aborted] else []).

(** Probes: [connect_uav()] returns [None]; the vehicle connects but
    [streamon()] raises; the deadline is found passed. *)
Definition soft_failure : probe :=
  {| clock := of_int 1; preempt_requested := false; connect := Connect_none |}.

Definition no_stream : probe :=
  {| clock := of_int 1; preempt_requested := false;
     connect := Connect_ok Tello (of_int 1) false |}.

Definition too_late : probe :=
  {| clock := of_int 31; preempt_requested := false; connect := Connect_none |}.

(** [n] iterations of the loop of [run], with the frames taken. *)
Fixpoint spin (n : nat) (q : PyQueue.Queue frame)
  : PyQueue.Queue frame * list frame :=
  match n with
  | O => (q, [])
  | S n' =>
      match run_iteration q with
      | (q', Some f) => let '(q'', fs) := spin n' q' in (q'', f :: fs)
      | (q', None) => spin n' q'
      end
  end.

(** The two threads at the grain of the queue's methods: the producer
    first checks [full()] and, holding the frame, calls [put] in a later
    step; the consumer first checks [empty()] and calls [get] in a later
    step.  A step that is not enabled leaves the system as it is. *)
Record threads : Type := {
  shared : PyQueue.Queue frame;
  holding : option frame;     (* the producer passed [not full()] *)
  taking : bool;              (* the consumer passed [not empty()] *)
  taken : list frame;
  stuck : bool                (* a [put] or a [get] had to block *)
}.

Inductive thread_event : Type :=
| P_check (imgmsg : Imgmsg)
| P_put
| C_check
| C_get.

Definition threads_init : threads :=
  {| shared := image_queue_init; holding := None; taking := false;
     taken := []; stuck := false |}.

Definition thread_step (s : threads) (e : thread_event) : threads :=
  match e with
  | P_check imgmsg =>
      match holding s, decoded imgmsg with
      | None, Some rgb_img =>
          if negb (PyQueue.full (shared s)) then
            {| shared := shared s; holding := Some (rgb_img, stamp imgmsg);
               taking := taking s; taken := taken s; stuck := stuck s |}
          else s
      | _, _ => s
      end
  | P_put =>
      match holding s with
      | Some f =>
          match PyQueue.put (shared s) f with
          | Some q => {| shared := q; holding := None; taking := taking s;
                         taken := taken s; stuck := stuck s |}
          | None => {| shared := shared s; holding := holding s;
                       taking := taking s; taken := taken s; stuck := true |}
          end
      | None => s
      end
  | C_check =>
      if negb (taking s) && negb (PyQueue.empty (shared s)) then
        {| shared := shared s; holding := holding s; taking := true;
           taken := taken s; stuck := stuck s |}
      else s
  | C_get =>
      if taking s then
        match PyQueue.get (shared s) with
        | Some (f, q) => {| shared := q; holding := holding s; taking := false;
                            taken := taken s ++ [f]; stuck := stuck s |}
        | None => {| shared := shared s; holding := holding s;
                     taking := taking s; taken := taken s; stuck := true |}
        end
      else s
  end.

Definition threads_run (evs : list thread_event) (s : threads) : threads :=
  fold_left thread_step evs s.

(** What the two threads keep true. *)
Record threads_inv (s : threads) : Prop := {
  tinv_maxsize : PyQueue.maxsize (shared s) = queue_capacity;
  tinv_bound : PyQueue.qsize (shared s) <= queue_capacity;
  tinv_room : holding s <> None -> PyQueue.qsize (shared s) < queue_capacity;
  tinv_item : taking s = true -> 0 < PyQueue.qsize (shared s);
  tinv_stuck : stuck s = false
}.

(** ** The top-level state machine of the client *)

(** The name of an outcome, as the transition tables spell it. *)
Definition outcome_name (o : Smach.outcome) : string :=
  match o with
  | Smach.succeeded => "succeeded"
  | Smach.aborted => "aborted"
  | Smach.preempted => "preempted"
  end%string.

(** [sm]: its outcomes and, for each state added, the [transitions]
    dictionary given to [StateMachine.add], in the order of the calls. *)
Definition sm_outcomes : list string :=
  ["succeeded"; "aborted"; "preempted"]%string.

Definition sm_states : list (string * list (string * string)) :=
  [("CONNECT", [("succeeded", "CON")]);
   ("CON", [("succeeded", "CON"); ("aborted", "aborted")])]%string.

Fixpoint assoc {A : Type} (k : string) (l : list (string * A)) : option A :=
  match l with
  | [] => None
  | (k', v) :: rest => if String.eqb k' k then Some v else assoc k rest
  end.

(** Where an outcome of a state leads. *)
Inductive target : Type :=
| Next (label : string)          (* another state *)
| Terminate (outcome : string)   (* an outcome of [sm] *)
| Unlisted.                      (* the client lists no transition *)

Definition transition (label : string) (o : Smach.outcome) : target :=
  match assoc label sm_states with
  | None => Unlisted
  | Some transitions =>
      match assoc (outcome_name o) transitions with
      | None => Unlisted
      | Some t =>
          match assoc t sm_states with
          | Some _ => Next t
          | None => if existsb (String.eqb t) sm_outcomes
                    then Terminate t else Unlisted
          end
      end
  end.

(** How a run of the plan over finitely many rounds of CON stands. *)
Inductive plan_status : Type :=
| Ended (outcome : string)
| In_state (label : string)
| No_transition (label : string) (o : Smach.outcome).

(** The rounds of CON: each is the pair of outcomes of PUBLISH and
    CONTROL_MOTOR. *)
Fixpoint con_rounds (rounds : list (Smach.outcome * Smach.outcome)) : plan_status :=
  match rounds with
  | [] => In_state "CON"
  | (publish, control) :: rest =>
      let o := composite publish control in
      match transition "CON" o with
      | Next "CON" => con_rounds rest
      | Next l => In_state l
      | Terminate t => Ended t
      | Unlisted => No_transition "CON" o
      end
  end.

(** [sm.execute()]: CONNECT, then the rounds of CON. *)
Definition sm_execute (connect : Smach.outcome)
    (rounds : list (Smach.outcome * Smach.outcome)) : plan_status :=
  match transition "CONNECT" connect with
  | Next "CON" => con_rounds rounds
  | Next l => In_state l
  | Terminate t => Ended t
  | Unlisted => No_transition "CONNECT" connect
  end.

(** ** [execute_start_stream_cb]: the STREAM activity *)

(** The exception classes named by the [except] clauses. *)
Inductive exc_class : Type :=
| E_CvBridgeError
| E_ROSSerializationException
| E_ROSException
| E_ROSInterruptException
| E_KeyboardInterrupt.

(** What the body of [try] does in one iteration: it publishes and sleeps,
    or an exception of some class is raised, before the message is
    published or in [rate.sleep()]. *)
Inductive try_result : Type :=
| Published
| Raised_before_publish (c : exc_class)
| Raised_in_sleep (c : exc_class).

(** What one iteration reads from outside: [rospy.is_shutdown()], the frame
    of [get_frame_read()] ([None] or an image) and the course of [try]. *)
Record stream_probe : Type := {
  is_shutdown : bool;
  frame_read : option (list Z);
  tried : try_result
}.

Inductive stream_event : Type :=
| S_loginfo (text : string)
| S_logerr (text : string)
| S_publish (image_data : list Z)   (* [pub.publish] of the converted frame *)
| S_sleep.

Inductive stream_end : Type :=
| Stream_returned
| Stream_running
| Stream_attribute_error          (* [self._uav] is [None] *)
| Stream_raised (c : exc_class).

(** What an [except] clause does after binding the exception. *)
Inductive handler : Type :=
| Logerr_raise (text : string)
| Raise_again
| Loginfo_continue (text : string)
| Loginfo_raise (text : string).

Definition except_clauses : list (exc_class * handler) :=
  [(E_CvBridgeError,
    Logerr_raise "Ran into exception when converting message type with CvBridge. See error below:");
   (E_ROSSerializationException,
    Logerr_raise "Ran into exception when serializing message for publish. See error below:");
   (E_ROSException, Raise_again);
   (E_ROSInterruptException, Loginfo_continue "ROS Interrupt.");
   (E_KeyboardInterrupt, Loginfo_raise "ROS Interrupt.")].

Definition good_frame (p : stream_probe) : Prop :=
  is_shutdown p = false /\ frame_read p <> None /\ tried p = Published.

Fixpoint frames_of (script : list stream_probe) : list (list Z) :=
  match script with
  | [] => []
  | p :: rest =>
      match frame_read p with
      | Some f => f :: frames_of rest
      | None => frames_of rest
      end
  end.

Section Stream.

(** [issubclass], over the classes above: given by the libraries that
    define them. *)
Variable issubclass : exc_class -> exc_class -> bool.

(** The first clause whose class the raised exception is an instance of. *)
Fixpoint find_handler (c : exc_class) (clauses : list (exc_class * handler))
  : option handler :=
  match clauses with
  | [] => None
  | (cls, h) :: rest =>
      if issubclass c cls then Some h else find_handler c rest
  end.

Definition prepend (evs : list stream_event)
    (r : stream_end * list stream_event * Z) : stream_end * list stream_event * Z :=
  match r with
  | (e, t, n) => (e, evs ++ t, n)
  end.

(** The loop, with [pub_counter]; the result is how the callback stands,
    the calls made, and the counter. *)
Fixpoint stream_loop (uav : option Uav) (pub_counter : Z)
    (script : list stream_probe) : stream_end * list stream_event * Z :=
  match script with
  | [] => (Stream_running, [], pub_counter)
  | p :: rest =>
      if is_shutdown p then (Stream_returned, [], pub_counter)
      else
        match uav with
        | None => (Stream_attribute_error, [], pub_counter)
        | Some _ =>
            match frame_read p with
            | None =>
                (Stream_returned,
                 [S_loginfo "Frame is None or return code error."],
                 pub_counter)
            | Some image_data =>
                let handle (c : exc_class) (done : list stream_event) (n : Z) :=
                  match find_handler c except_clauses with
                  | Some (Logerr_raise text) =>
                      (Stream_raised c, done ++ [S_logerr text], n)
                  | Some Raise_again => (Stream_raised c, done, n)
                  | Some (Loginfo_continue text) =>
                      prepend (done ++ [S_loginfo text])
                              (stream_loop uav n rest)
                  | Some (Loginfo_raise text) =>
                      (Stream_raised c, done ++ [S_loginfo text], n)
                  | None => (Stream_raised c, done, n)
                  end in
                match tried p with
                | Published =>
                    prepend [S_publish image_data; S_sleep]
                            (stream_loop uav (pub_counter + 1) rest)
                | Raised_before_publish c => handle c [] pub_counter
                | Raised_in_sleep c =>
                    handle c [S_publish image_data] (pub_counter + 1)
                end
            end
        end
  end.

Definition execute_start_stream_cb (s : PIDActionServer)
    (script : list stream_probe) : stream_end * list stream_event * Z :=
  stream_loop (_uav s) 0 script.

End Stream.

(** A stream probe with a frame, and one without. *)
Definition with_frame (f : list Z) : stream_probe :=
  {| is_shutdown := false; frame_read := Some f; tried := Published |}.

Definition without_frame : stream_probe :=
  {| is_shutdown := false; frame_read := None; tried := Published |}.

(** ** The life cycle of [BaseInferenceNode] *)

(** The attributes of the node.  [__init__] creates the queue and the
    history; [load_model] creates [_model_info] and [_model_name];
    [init] creates [_inference_topic], [_inference_msg_type] and
    [pub_counter].  An attribute not yet created is [None].  Of the model
    information only the entry ["pub_message_type"] is used: [node_model_info]
    is [Some (Some t)] when the dictionary holds it with value [t], and
    [Some None] when the dictionary lacks the key. *)
Record BaseInferenceNode : Type := {
  node_image_queue : PyQueue.Queue frame;
  node_history : list (string * Z);
  node_model_info : option (option string);
  node_model_name : option string;
  node_inference_topic : option string;
  node_inference_msg_type : option string;
  node_pub_counter : option Z
}.

Inductive node_error : Type :=
| Node_AttributeError (attr : string)
| Node_KeyError (key : string).

Inductive node_result : Type :=
| Node_ok
| Node_raise (e : node_error).

Inductive node_call : Type :=
| N_init_node
| N_loginfo (text : string)
| N_subscribe (topic : string)
| N_advertise (topic : string) (msg_type : string)
| N_print (index : Z) (topic : string)   (* "[index]: Publish model_output to topic: ..." *)
| N_publish (image : frame)              (* the message built from this frame *)
| N_sleep.

(** [BaseInferenceNode.__init__]. *)
Definition node_new : BaseInferenceNode :=
  {| node_image_queue := image_queue_init; node_history := [];
     node_model_info := None; node_model_name := None;
     node_inference_topic := None; node_inference_msg_type := None;
     node_pub_counter := None |}.

(** [load_model(model_name)], [model_info] being what
    [load_model_processor] returned. *)
Definition load_model (model_name : string) (model_info : option string)
    (n : BaseInferenceNode) : BaseInferenceNode :=
  {| node_image_queue := node_image_queue n; node_history := node_history n;
     node_model_info := Some model_info; node_model_name := Some model_name;
     node_inference_topic := node_inference_topic n;
     node_inference_msg_type := node_inference_msg_type n;
     node_pub_counter := node_pub_counter n |}.

(** [init()]: [init_node_ok] tells whether [rospy.init_node] returns (it
    raises ROSInitException otherwise, which the [except] clause drops) and
    [now] is the clock read into the history. *)
Definition node_init_cb (init_node_ok : bool) (now : Z) (n : BaseInferenceNode)
  : node_result * BaseInferenceNode * list node_call :=
  if negb init_node_ok then (Node_ok, n, [N_init_node])
  else
    let pre := [N_init_node; N_loginfo "ACLInference Node initializing..."] in
    let history := ("node_start"%string, now) :: node_history n in
    let n1 := {| node_image_queue := node_image_queue n; node_history := history;
                 node_model_info := node_model_info n;
                 node_model_name := node_model_name n;
                 node_inference_topic := node_inference_topic n;
                 node_inference_msg_type := node_inference_msg_type n;
                 node_pub_counter := node_pub_counter n |} in
    match node_model_name n with
    | None => (Node_raise (Node_AttributeError "_model_name"), n1, pre)
    | Some name =>
        let topic := ("/acl_inference/" ++ name)%string in
        let n2 := {| node_image_queue := node_image_queue n;
                     node_history := history;
                     node_model_info := node_model_info n;
                     node_model_name := node_model_name n;
                     node_inference_topic := Some topic;
                     node_inference_msg_type := node_inference_msg_type n;
                     node_pub_counter := node_pub_counter n |} in
        match node_model_info n with
        | None => (Node_raise (Node_AttributeError "_model_info"), n2, pre)
        | Some None => (Node_raise (Node_KeyError "pub_message_type"), n2, pre)
        | Some (Some msg_type) =>
            (Node_ok,
             {| node_image_queue := node_image_queue n;
                node_history := history;
                node_model_info := node_model_info n;
                node_model_name := node_model_name n;
                node_inference_topic := Some topic;
                node_inference_msg_type := Some msg_type;
                node_pub_counter := Some 0 |},
             pre ++ [N_subscribe "/tello/cam_data_raw";
                     N_advertise topic msg_type;
                     N_loginfo "ACLInference Node: Publisher & Subscriber initialized."])
        end
    end.

Definition with_queue (q : PyQueue.Queue frame) (n : BaseInferenceNode)
  : BaseInferenceNode :=
  {| node_image_queue := q; node_history := node_history n;
     node_model_info := node_model_info n; node_model_name := node_model_name n;
     node_inference_topic := node_inference_topic n;
     node_inference_msg_type := node_inference_msg_type n;
     node_pub_counter := node_pub_counter n |}.

Definition with_pub_counter (k : Z) (n : BaseInferenceNode) : BaseInferenceNode :=
  {| node_image_queue := node_image_queue n; node_history := node_history n;
     node_model_info := node_model_info n; node_model_name := node_model_name n;
     node_inference_topic := node_inference_topic n;
     node_inference_msg_type := node_inference_msg_type n;
     node_pub_counter := Some k |}.

(** One iteration of the loop of [run], the model and the message
    construction returning normally. *)
Definition node_run_iteration (n : BaseInferenceNode)
  : node_result * BaseInferenceNode * list node_call :=
  match run_iteration (node_image_queue n) with
  | (q, Some f) =>
      let n1 := with_queue q n in
      match node_pub_counter n1 with
      | None => (Node_raise (Node_AttributeError "pub_counter"), n1, [])
      | Some k =>
          match node_inference_topic n1 with
          | None => (Node_raise (Node_AttributeError "_inference_topic"), n1, [])
          | Some topic =>
              (Node_ok, with_pub_counter (k + 1) n1,
               [N_print k topic; N_publish f; N_sleep])
          end
      end
  | (q, None) =>
      (Node_ok, with_queue q n,
       [N_loginfo "Image queue is empty. Check image_callback"])
  end.

(** [fuel] iterations of [run]; an exception ends the loop. *)
Fixpoint node_run_loop (fuel : nat) (n : BaseInferenceNode)
  : node_result * BaseInferenceNode * list node_call :=
  match fuel with
  | O => (Node_ok, n, [])
  | S fuel' =>
      match node_run_iteration n with
      | (Node_ok, n1, t1) =>
          match node_run_loop fuel' n1 with
          | (r, n2, t2) => (r, n2, t1 ++ t2)
          end
      | (Node_raise e, n1, t1) => (Node_raise e, n1, t1)
      end
  end.

(** The calls made for frames published from index [k] on. *)
Fixpoint publications (k : Z) (topic : string) (fs : list frame) : list node_call :=
  match fs with
  | [] => []
  | f :: rest =>
      [N_print k topic; N_publish f; N_sleep] ++ publications (k + 1) topic rest
  end.

Definition pending_node : BaseInferenceNode :=
  with_queue (fst (image_callback image_queue_init (arrival 1)))
    (snd (fst (node_init_cb false 7 (load_model "face_detection" (Some "FaceDetection"%string) node_new)))).

Definition two_frames : BaseInferenceNode :=
  with_queue {| PyQueue.maxsize := 5; PyQueue.items := [([1], 1); ([2], 2)] |}
             node_new.

(** What rounding returns: a zero or an infinity of the given sign, or a
    finite number of that sign whose significand fits the format. *)
Inductive rounded (sx : bool) : float -> Prop :=
| rounded_zero : rounded sx (S754_zero sx)
| rounded_infinity : rounded sx (S754_infinity sx)
| rounded_finite m e : Z.pos m < 2 ^ prec -> rounded sx (S754_finite sx m e).

(** * Properties

    ** Rounding to binary64 *)

Section Rounding.

Example f0_1_bits : f0_1 = S754_finite false 7205759403792794 (-56).
Proof. reflexivity. Qed.

Example of_int_100 : of_int 100 = S754_finite false 7036874417766400 (-46).
Proof. reflexivity. Qed.


Lemma digits2_pos_bound (p : positive) : Z.pos p < 2 ^ Z.pos (digits2_pos p).
Proof.
  induction p as [p IH | p IH |]; cbn [digits2_pos].
  - rewrite Pos2Z.inj_succ, Z.pow_succ_r by lia. lia.
  - rewrite Pos2Z.inj_succ, Z.pow_succ_r by lia. lia.
  - reflexivity.
Qed.

Lemma Zdigits2_bound (m : Z) : 0 <= m -> m < 2 ^ Zdigits2 m.
Proof.
  destruct m as [| p | p]; intros H; cbn [Zdigits2].
  - reflexivity.
  - apply digits2_pos_bound.
  - lia.
Qed.

Lemma shr_1_div2 (mrs : shr_record) :
  0 <= shr_m mrs -> shr_m (shr_1 mrs) = Z.div2 (shr_m mrs).
Proof.
  destruct mrs as [m r s]; cbn [shr_m].
  destruct m as [| [p | p |] | p]; intros H; try reflexivity; lia.
Qed.

Lemma iter_shr_1 (p : positive) : forall mrs : shr_record,
  0 <= shr_m mrs ->
  shr_m (iter_pos shr_1 p mrs) = Z.shiftr (shr_m mrs) (Z.pos p).
Proof.
  induction p as [p IH | p IH |]; intros mrs H; cbn [iter_pos].
  - assert (H1 : 0 <= shr_m (shr_1 mrs))
      by (rewrite shr_1_div2 by exact H; rewrite Z.div2_div; apply Z.div_pos; lia).
    assert (H2 : 0 <= shr_m (iter_pos shr_1 p (shr_1 mrs)))
      by (rewrite IH by exact H1; apply Z.shiftr_nonneg; exact H1).
    rewrite IH by exact H2. rewrite IH by exact H1.
    rewrite shr_1_div2 by exact H.
    rewrite Z.div2_spec, !Z.shiftr_shiftr by lia.
    f_equal. lia.
  - assert (H1 : 0 <= shr_m (iter_pos shr_1 p mrs))
      by (rewrite IH by exact H; apply Z.shiftr_nonneg; exact H).
    rewrite IH by exact H1. rewrite IH by exact H.
    rewrite Z.shiftr_shiftr by lia. f_equal. lia.
  - rewrite shr_1_div2 by exact H. apply Z.div2_spec.
Qed.

Lemma shr_record_of_loc_m (m : Z) (l : location) :
  shr_m (shr_record_of_loc m l) = m.
Proof. destruct l as [| []]; reflexivity. Qed.

(** After the shift to the format's exponent the significand is that of a
    binary64 number: non-negative and below [2^53]. *)
Lemma shr_fexp_bound (m e : Z) (l : location) :
  0 <= m ->
  0 <= shr_m (fst (shr_fexp prec emax m e l)) < 2 ^ prec.
Proof.
  intros Hm. unfold shr_fexp, shr.
  pose proof (Zdigits2_bound m Hm) as Hd.
  assert (Hn : Zdigits2 m - prec <= fexp prec emax (Zdigits2 m + e) - e)
    by (unfold fexp; lia).
  assert (H0 : 0 <= Zdigits2 m) by (destruct m; cbn; lia).
  destruct (fexp prec emax (Zdigits2 m + e) - e) as [| n | n] eqn:En;
    cbn [fst]; rewrite ?shr_record_of_loc_m.
  - split; [exact Hm |].
    apply Z.lt_le_trans with (1 := Hd). apply Z.pow_le_mono_r; lia.
  - rewrite iter_shr_1 by (rewrite shr_record_of_loc_m; exact Hm).
    rewrite shr_record_of_loc_m. split.
    + apply Z.shiftr_nonneg; exact Hm.
    + rewrite Z.shiftr_div_pow2 by lia.
      apply Z.div_lt_upper_bound; [lia |].
      rewrite <- Z.pow_add_r by (unfold prec; lia).
      apply Z.lt_le_trans with (1 := Hd). apply Z.pow_le_mono_r; lia.
  - split; [exact Hm |].
    apply Z.lt_le_trans with (1 := Hd). apply Z.pow_le_mono_r; lia.
Qed.

Lemma round_nearest_even_nonneg (m : Z) (l : location) :
  0 <= m -> 0 <= round_nearest_even m l.
Proof.
  intros H. destruct l as [| []]; cbn [round_nearest_even];
    try destruct (Z.even m); lia.
Qed.

Lemma binary_round_aux_rounded (sx : bool) (mx ex : Z) (lx : location) :
  0 <= mx -> rounded sx (binary_round_aux prec emax sx mx ex lx).
Proof.
  intros Hm. unfold binary_round_aux.
  pose proof (shr_fexp_bound mx ex lx Hm) as H1.
  destruct (shr_fexp prec emax mx ex lx) as [mrs' e'] eqn:E1. cbn [fst] in H1.
  pose proof (shr_fexp_bound
                (round_nearest_even (shr_m mrs') (loc_of_shr_record mrs')) e'
                loc_Exact
                (round_nearest_even_nonneg _ _ (proj1 H1))) as H2.
  destruct (shr_fexp prec emax _ e' loc_Exact) as [mrs'' e''] eqn:E2.
  cbn [fst] in H2.
  destruct (shr_m mrs'') as [| m | m].
  - constructor.
  - destruct (e'' <=? emax - prec); constructor. apply H2.
  - lia.
Qed.

Lemma binary_round_rounded (sx : bool) (mx : positive) (ex : Z) :
  rounded sx (binary_round prec emax sx mx ex).
Proof.
  unfold binary_round.
  destruct (shl_align mx ex _) as [mz ez].
  apply binary_round_aux_rounded. lia.
Qed.

Lemma rounded_mant_ok (sx : bool) (x : float) : rounded sx x -> mant_ok x.
Proof. intros []; cbn; auto. Qed.

Lemma rounded_not_nan (sx : bool) (x : float) : rounded sx x -> is_nan x = false.
Proof. intros []; reflexivity. Qed.

Lemma binary_normalize_mant_ok (m e : Z) (s : bool) :
  mant_ok (binary_normalize prec emax m e s).
Proof.
  destruct m; cbn [binary_normalize]; [exact I | |];
    eapply rounded_mant_ok, binary_round_rounded.
Qed.


Lemma fmul_mant_ok (x y : float) : mant_ok (fmul x y).
Proof.
  destruct x, y; cbn; auto.
  eapply rounded_mant_ok, binary_round_aux_rounded. lia.
Qed.

Lemma fadd_mant_ok (x y : float) : mant_ok x -> mant_ok y -> mant_ok (fadd x y).
Proof.
  intros Hx Hy. destruct x as [sx | sx | | sx mx ex], y as [sy | sy | | sy my ey];
    try destruct sx; try destruct sy; cbn [fadd SFadd mant_ok]; auto;
    apply binary_normalize_mant_ok.
Qed.

Lemma fmul_finite_not_nan (x y : float) :
  is_finite x = true -> is_finite y = true -> is_nan (fmul x y) = false.
Proof.
  destruct x, y; cbn; try discriminate; auto. intros _ _.
  eapply rounded_not_nan, binary_round_aux_rounded. lia.
Qed.

Lemma fsub_diag (x : float) : is_finite x = true -> fsub x x = S754_zero false.
Proof.
  destruct x as [[] | | | s m e]; cbn; try discriminate; auto. intros _.
  rewrite Z.sub_diag. reflexivity.
Qed.

End Rounding.


Section Comparison.

Lemma compare_cont_refl (m : positive) : Pos.compare_cont Eq m m = Eq.
Proof. change (Pos.compare m m = Eq). apply Pos.compare_refl. Qed.

Lemma feq_refl (x : float) : is_nan x = false -> feq x x = true.
Proof.
  destruct x as [s | s | | s m e]; cbn; try discriminate; intros _.
  - reflexivity.
  - destruct s; reflexivity.
  - unfold feq, SFeqb; cbn. rewrite Z.compare_refl, compare_cont_refl.
    destruct s; reflexivity.
Qed.

Lemma feq_zeros (x y : float) :
  is_zero x = true -> is_zero y = true -> feq x y = true.
Proof. destruct x, y; cbn; try discriminate; reflexivity. Qed.

Lemma fmul_zero_r (k x : float) :
  is_finite k = true -> is_zero x = true -> is_zero (fmul k x) = true.
Proof. destruct k, x; cbn; try discriminate; reflexivity. Qed.

(** Adding a zero changes nothing, up to the sign of a zero sum. *)
Lemma fadd_zero_r (p z : float) :
  is_zero z = true ->
  (is_zero p = true /\ is_zero (fadd p z) = true) \/
  (is_zero p = false /\ fadd p z = p).
Proof.
  destruct z as [sz | | |]; cbn; try discriminate; intros _.
  destruct p as [sp | sp | | sp m e]; cbn; auto.
  left. destruct sp, sz; auto.
Qed.

End Comparison.

Section PID.

Lemma pid_compute (error prev_error : float) (s : PIDActionServer) :
  pid error prev_error s = (Ok (compute error prev_error (pid_input s)), s, []).
Proof.
  unfold pid, compute, bind, gets, ret, item0, item1, item2.
  destruct (pid_input s) as [[k0 k1] k2]. reflexivity.
Qed.

Lemma compute_diag (e kp kd1 kd2 : float) :
  is_finite e = true -> finite_gains (kp, kd1, kd2) ->
  feq (compute e e (kp, kd1, kd2)) (fmul kp e) = true /\
  (is_zero (fmul kp e) = false -> compute e e (kp, kd1, kd2) = fmul kp e).
Proof.
  intros He (Hp & H1 & H2). cbn [compute].
  rewrite (fsub_diag e He).
  pose proof (fmul_zero_r kd1 (S754_zero false) H1 eq_refl) as Z1.
  pose proof (fmul_zero_r kd2 (S754_zero false) H2 eq_refl) as Z2.
  pose proof (fmul_finite_not_nan kp e Hp He) as Hn.
  destruct (fadd_zero_r (fmul kp e) _ Z1) as [[Hz Hz1] | [Hz E1]].
  - destruct (fadd_zero_r (fadd (fmul kp e) (fmul kd1 (S754_zero false))) _ Z2)
      as [[_ Hz2] | [Hc _]]; [| congruence].
    split; [apply feq_zeros; assumption | congruence].
  - rewrite E1.
    destruct (fadd_zero_r (fmul kp e) _ Z2) as [[Hc _] | [_ E2]]; [congruence |].
    rewrite E2. split; [apply feq_refl; exact Hn | reflexivity].
Qed.

End PID.


(** ** Clamping and conversion to [int] *)

Section Clamp.

(** The bound [B], and its binary64 representation [mh * 2^eh]. *)
Variables (mh : positive) (eh B : Z).
Hypothesis eh_range : - 52 <= eh < 0.
Hypothesis B_repr : Z.shiftl (Z.pos mh) eh = B.
Hypothesis B_large : 2 ^ (52 + eh) <= B.

Let hi : float := S754_finite false mh eh.
Let lo : float := S754_finite true mh eh.

Lemma shiftl_below_bound (m : positive) (e : Z) :
  Z.pos m < 2 ^ prec ->
  e < eh \/ (e = eh /\ (m <= mh)%positive) ->
  0 <= Z.shiftl (Z.pos m) e <= B.
Proof using eh_range B_repr B_large.
  intros Hm He.
  assert (Hs : forall a n, 0 < n -> Z.shiftl a (- n) = a / 2 ^ n).
  { intros a n Hn. rewrite Z.shiftl_opp_r, Z.shiftr_div_pow2 by lia.
    reflexivity. }
  assert (Hp : 0 < 2 ^ (- e)) by (apply Z.pow_pos_nonneg; lia).
  replace e with (- (- e)) by lia. rewrite Hs by lia.
  split; [apply Z.div_pos; lia |].
  destruct He as [He | [He Hle]].
  - apply Z.lt_le_incl, Z.lt_le_trans with (2 := B_large).
    apply Z.div_lt_upper_bound; [exact Hp |].
    apply Z.lt_le_trans with (1 := Hm).
    rewrite <- Z.pow_add_r by lia.
    apply Z.pow_le_mono_r; unfold prec; lia.
  - rewrite <- B_repr, He.
    replace eh with (- (- eh)) at 2 by lia. rewrite Hs by lia.
    apply Z.div_le_mono; lia.
Qed.

(** A clamped signal converts to an [int] within the bounds; the
    conversion raises only for a NaN signal. *)
Lemma py_int_np_clip (v : float) :
  mant_ok v ->
  match py_int (np_clip v lo hi) with
  | Ok z => - B <= z <= B /\ is_nan v = false
  | Raise e => e = ValueError /\ is_nan v = true
  end.
Proof using eh_range B_repr B_large.
  assert (HB : 0 <= B).
  { rewrite <- B_repr. apply Z.shiftl_nonneg. lia. }
  intros Hv. destruct v as [s | s | | s m e].
  - cbn. destruct s; cbn; lia.
  - destruct s; cbn; rewrite B_repr; lia.
  - cbn. auto.
  - cbn [mant_ok] in Hv.
    unfold np_clip, flt, fgt, SFltb. cbn [is_nan].
    destruct s.
    + (* negative signal *)
      cbn [SFcompare lo].
      destruct (Z.compare_spec e eh) as [He | He | He].
      * change (Pos.compare_cont Eq m mh) with (Pos.compare m mh).
        destruct (Pos.compare_spec m mh) as [Hc | Hc | Hc]; cbn;
          try (rewrite B_repr; lia).
        -- pose proof (shiftl_below_bound m e Hv) as Hs.
           split; [| reflexivity]. assert ((m <= mh)%positive) by lia. lia.
        -- pose proof (shiftl_below_bound m e Hv) as Hs.
           split; [| reflexivity]. assert ((m <= mh)%positive) by lia. lia.
      * cbn. pose proof (shiftl_below_bound m e Hv) as Hs.
        split; [| reflexivity]. lia.
      * cbn. rewrite B_repr. lia.
    + (* positive signal *)
      cbn [SFcompare lo hi].
      destruct (Z.compare_spec eh e) as [He | He | He].
      * change (Pos.compare_cont Eq mh m) with (Pos.compare mh m).
        destruct (Pos.compare_spec mh m) as [Hc | Hc | Hc]; cbn;
          try (rewrite B_repr; lia).
        -- pose proof (shiftl_below_bound m e Hv) as Hs.
           split; [| reflexivity]. assert ((m <= mh)%positive) by lia. lia.
        -- pose proof (shiftl_below_bound m e Hv) as Hs.
           split; [| reflexivity]. assert ((m <= mh)%positive) by lia. lia.
      * cbn. rewrite B_repr. lia.
      * cbn. pose proof (shiftl_below_bound m e Hv) as Hs.
        split; [| reflexivity]. lia.
Qed.

End Clamp.

Lemma yaw_clamp (v : float) :
  mant_ok v ->
  match py_int (np_clip v (of_int (-100)) (of_int 100)) with
  | Ok z => - 100 <= z <= 100 /\ is_nan v = false
  | Raise e => e = ValueError /\ is_nan v = true
  end.
Proof.
  apply (py_int_np_clip 7036874417766400 (-46) 100); [lia | reflexivity |].
  vm_compute. discriminate.
Qed.

Lemma vertical_clamp (v : float) :
  mant_ok v ->
  match py_int (np_clip v (of_int (-50)) (of_int 50)) with
  | Ok z => - 50 <= z <= 50 /\ is_nan v = false
  | Raise e => e = ValueError /\ is_nan v = true
  end.
Proof.
  apply (py_int_np_clip 7036874417766400 (-47) 50); [lia | reflexivity |].
  vm_compute. discriminate.
Qed.

(** ** The TRACK tick *)

Section Track.

Lemma compute_mant_ok (e p : float) (g : float * float * float) :
  mant_ok (compute e p g).
Proof.
  destruct g as [[kp kd1] kd2]. cbn [compute].
  repeat apply fadd_mant_ok; apply fmul_mant_ok.
Qed.

Lemma pid_compute_value (error prev_error : float) (s : PIDActionServer) :
  pid_value error prev_error s = compute error prev_error (pid_input s).
Proof.
  unfold pid_value, compute, item0, item1, item2.
  destruct (pid_input s) as [[k0 k1] k2]. reflexivity.
Qed.

Lemma execute_track_body_eq (s : PIDActionServer) :
  execute_track_body s =
  match yaw_of s with
  | Raise e => (Raise e, s, [])
  | Ok yaw =>
      match up_down_of s with
      | Raise e => (Raise e, s, [])
      | Ok ud =>
          match _area s with
          | None => (Raise (AttributeError "_area"), s, [])
          | Some a =>
              let cmd := {| left_right_velocity := 0;
                            forward_backward_velocity := forward_of (setpoint_area s) a;
                            up_down_velocity := ud;
                            yaw_velocity := yaw |} in
              (Ok cmd, s, [Loginfo_tracking cmd])
          end
      end
  end.
Proof.
  unfold yaw_of, up_down_of, yaw_signal, vertical_signal, forward_of.
  rewrite <- (pid_compute_value (_x_err s) (_prev_x_err s) s).
  rewrite <- (pid_compute_value (_y_err s) (_prev_y_err s) s).
  cbv [execute_track_body bind gets pid ret lift getattr emit app pid_value].
  destruct (fne (_x_err s) (of_int 0)), (fne (_y_err s) (of_int 0));
    repeat match goal with
           | |- context [match py_int ?v with _ => _ end] =>
               destruct (py_int v); cbv [app]
           end;
    try reflexivity;
    destruct (_area s); reflexivity.
Qed.


Lemma track_tick_frame (s : PIDActionServer) :
  state_after (execute_track_body s) = s.
Proof.
  rewrite execute_track_body_eq.
  destruct (yaw_of s); [| reflexivity].
  destruct (up_down_of s); [| reflexivity].
  destruct (_area s); reflexivity.
Qed.

Lemma track_tick_ok (s : PIDActionServer) (cmd : command) :
  result_of (execute_track_body s) = Ok cmd ->
  exists a,
    _area s = Some a /\
    yaw_of s = Ok (yaw_velocity cmd) /\
    up_down_of s = Ok (up_down_velocity cmd) /\
    forward_backward_velocity cmd = forward_of (setpoint_area s) a /\
    left_right_velocity cmd = 0.
Proof.
  rewrite execute_track_body_eq.
  destruct (yaw_of s) as [yaw | e]; [| discriminate].
  destruct (up_down_of s) as [ud | e]; [| discriminate].
  destruct (_area s) as [a |]; [| discriminate].
  cbn. intros H. injection H as <-. exists a. cbn. auto.
Qed.

Lemma track_tick_raise (s : PIDActionServer) (e : exn) :
  result_of (execute_track_body s) = Raise e ->
  yaw_of s = Raise e \/
  (exists yaw, yaw_of s = Ok yaw /\ up_down_of s = Raise e) \/
  (e = AttributeError "_area" /\ _area s = None).
Proof.
  rewrite execute_track_body_eq.
  destruct (yaw_of s) as [yaw | e1]; [| cbn; intros [= ->]; auto].
  destruct (up_down_of s) as [ud | e1]; [| cbn; intros [= ->]; eauto].
  destruct (_area s) as [a |]; cbn; [discriminate |].
  intros [= <-]. auto.
Qed.

Lemma fne_feq (x y : float) : fne x y = negb (feq x y).
Proof. reflexivity. Qed.

Lemma yaw_of_spec (s : PIDActionServer) :
  match yaw_of s with
  | Ok z => - 100 <= z <= 100 /\ (feq (_x_err s) (of_int 0) = true -> z = 0)
  | Raise e => e = ValueError /\ is_nan (yaw_signal s) = true
  end.
Proof.
  unfold yaw_of. rewrite fne_feq.
  destruct (feq (_x_err s) (of_int 0)); cbn [negb].
  - split; [lia | reflexivity].
  - pose proof (yaw_clamp (yaw_signal s) (compute_mant_ok _ _ _)) as H.
    destruct (py_int _); [| exact H].
    split; [apply H | discriminate].
Qed.

Lemma up_down_of_spec (s : PIDActionServer) :
  match up_down_of s with
  | Ok z => - 50 <= z <= 50 /\ (feq (_y_err s) (of_int 0) = true -> z = 0)
  | Raise e => e = ValueError /\ is_nan (vertical_signal s) = true
  end.
Proof.
  unfold up_down_of. rewrite fne_feq.
  destruct (feq (_y_err s) (of_int 0)); cbn [negb].
  - split; [lia | reflexivity].
  - pose proof (vertical_clamp (vertical_signal s) (fmul_mant_ok _ _)) as H.
    destruct (py_int _); [| exact H].
    split; [apply H | discriminate].
Qed.

(** A tick raises only for a NaN signal or a missing area. *)
Lemma track_tick_raise_cases (s : PIDActionServer) (e : exn) :
  result_of (execute_track_body s) = Raise e ->
  (e = ValueError /\
   (is_nan (yaw_signal s) = true \/ is_nan (vertical_signal s) = true)) \/
  (e = AttributeError "_area" /\ _area s = None).
Proof.
  pose proof (yaw_of_spec s) as Hy. pose proof (up_down_of_spec s) as Hu.
  intros Hr.
  destruct (track_tick_raise s e Hr) as [Ey | [(yaw & _ & Eu) | H]].
  - rewrite Ey in Hy. left. tauto.
  - rewrite Eu in Hu. left. tauto.
  - right. exact H.
Qed.

Lemma SFcompare_antisym (x y : float) :
  SFcompare y x = option_map CompOpp (SFcompare x y).
Proof.
  destruct x as [[] | [] | | [] mx ex], y as [[] | [] | | [] my ey];
    cbn [SFcompare option_map CompOpp]; try reflexivity;
    rewrite (Z.compare_antisym ex ey);
    destruct (IntDef.Z.compare ex ey); cbn [CompOpp]; try reflexivity;
    f_equal;
    change (PosDef.Pos.compare_cont Eq my mx) with (Pos.compare my mx);
    change (PosDef.Pos.compare_cont Eq mx my) with (Pos.compare mx my);
    rewrite (Pos.compare_antisym mx my);
    destruct (Pos.compare mx my); reflexivity.
Qed.

(** A number above the upper bound is not below the lower bound. *)
Lemma above_high_not_below_low (a : float) :
  SFcompare a (of_int 100000) = Some Gt ->
  SFcompare a (of_int 20000) = Some Lt -> False.
Proof.
  change (of_int 20000) with (S754_finite false 5497558138880000 (-38)).
  change (of_int 100000) with (S754_finite false 6871947673600000 (-36)).
  destruct a as [[] | [] | | [] m e]; cbn [SFcompare]; try discriminate.
  destruct (IntDef.Z.compare e (-36)) eqn:H36;
    destruct (IntDef.Z.compare e (-38)) eqn:H38;
    intros H1 H2;
    try match goal with
        | H : Some Lt = Some Gt |- _ => discriminate H
        | H : Some Gt = Some Lt |- _ => discriminate H
        end;
    clear H1 H2;
    first [apply Z.compare_eq_iff in H36 | change (e > -36) in H36];
    first [apply Z.compare_eq_iff in H38 | change (e < -38) in H38];
    lia.
Qed.

Lemma forward_of_spec (a : float) :
  (flt a (of_int 20000) = true -> forward_of (20000, 100000) a = 20) /\
  (fgt a (of_int 100000) = true -> forward_of (20000, 100000) a = -20) /\
  (fle (of_int 20000) a = true -> fle a (of_int 100000) = true ->
   forward_of (20000, 100000) a = 0).
Proof.
  pose proof (above_high_not_below_low a) as Hord.
  unfold forward_of, fgt, flt, fle, SFltb, SFleb. cbn [fst snd].
  rewrite (SFcompare_antisym a (of_int 20000)).
  rewrite (SFcompare_antisym a (of_int 100000)).
  destruct (SFcompare a (of_int 20000)) as [[] |],
           (SFcompare a (of_int 100000)) as [[] |];
    cbn; repeat split; intros; try reflexivity; try discriminate;
    exfalso; apply Hord; reflexivity.
Qed.

End Track.

(** ** The detection feedback handler *)

Section Feedback.

Lemma process_var_sub_cb_search (msg : ProcessVar) (s : PIDActionServer) :
  feq (area msg) (of_int 0) = true ->
  process_var_sub_cb msg s =
  (Ok tt,
   set_y_err (_prev_y_err s) (set_x_err (_prev_x_err s) (set_is_search true s)),
   []).
Proof. intros H. unfold process_var_sub_cb. rewrite H. reflexivity. Qed.

Lemma process_var_sub_cb_track (msg : ProcessVar) (s : PIDActionServer) :
  feq (area msg) (of_int 0) = false ->
  process_var_sub_cb msg s =
  (Ok tt,
   set_y_err (fsub (of_int (snd (setpoint_center s))) (cy msg))
     (set_x_err (fsub (cx msg) (of_int (fst (setpoint_center s))))
        (set_area (area msg) (set_is_search false s))),
   []).
Proof. intros H. unfold process_var_sub_cb. rewrite H. reflexivity. Qed.

End Feedback.

(** C2 (counterexample): after a detection five pixels off centre, a message
    with area 0 overwrites [x_err] with [prev_x_err], which is still 0: the
    errors are not left unchanged. *)
Lemma no_detection_changes_err :
  ~ (forall (s : PIDActionServer) (msg : ProcessVar),
       feq (area msg) (of_int 0) = true ->
       let s' := state_after (process_var_sub_cb msg s) in
       _is_search s' = true /\ _x_err s' = _x_err s /\ _y_err s' = _y_err s).
Proof.
  intros H. destruct (H tracking no_detection eq_refl) as (_ & Hx & _).
  vm_compute in Hx. discriminate Hx.
Qed.

(** C2 (amended): for every prior state, the handler called with a message
    whose area equals 0 returns normally, sets [is_search] to true, assigns
    [prev_x_err] to [x_err] and [prev_y_err] to [y_err], and leaves the area,
    the previous errors and the configuration as they were; so the errors
    keep their values exactly when they already equal the previous errors. *)
Theorem no_detection_restores_prev_err (s : PIDActionServer) (msg : ProcessVar) :
  feq (area msg) (of_int 0) = true ->
  let s' := state_after (process_var_sub_cb msg s) in
  result_of (process_var_sub_cb msg s) = Ok tt /\
  calls (process_var_sub_cb msg s) = [] /\
  _is_search s' = true /\
  _x_err s' = _prev_x_err s /\
  _y_err s' = _prev_y_err s /\
  _prev_x_err s' = _prev_x_err s /\
  _prev_y_err s' = _prev_y_err s /\
  _area s' = _area s /\
  setpoint_area s' = setpoint_area s /\
  setpoint_center s' = setpoint_center s /\
  pid_input s' = pid_input s /\
  _uav s' = _uav s.
Proof.
  intros H. rewrite (process_var_sub_cb_search msg s H).
  cbn. repeat split.
Qed.

Lemma no_detection_restores_prev_err_witness :
  feq (area no_detection) (of_int 0) = true /\
  _is_search (state_after (process_var_sub_cb no_detection tracking)) = true /\
  _x_err (state_after (process_var_sub_cb no_detection tracking))
  = _prev_x_err tracking.
Proof.
  split; [reflexivity |].
  pose proof (no_detection_restores_prev_err tracking no_detection eq_refl) as H.
  cbv zeta in H. destruct H as (_ & _ & Hs & Hx & _). split; assumption.
Defined.

(** C1: a TRACK tick on the server that holds an error of 5 pixels returns
    its command and leaves the object as it was: [prev_x_err] is still 0, not
    the [x_err] the tick used (and likewise on the vertical axis). *)
Theorem track_tick_keeps_prev_err :
  let s' := state_after (execute_track_body tracking) in
  result_of (execute_track_body tracking)
  = Ok {| left_right_velocity := 0; forward_backward_velocity := 0;
          up_down_velocity := 50; yaw_velocity := 1 |} /\
  s' = tracking /\
  _x_err s' = of_int 5 /\ _prev_x_err s' = of_int 0 /\
  feq (_prev_x_err s') (_x_err s') = false /\
  _y_err s' = of_int 60 /\ _prev_y_err s' = of_int 0 /\
  feq (_prev_y_err s') (_y_err s') = false.
Proof. vm_compute. repeat split. Qed.

(** C6 (counterexample): with an infinite error the two derivative-shaped
    terms are [0.1 * (inf - inf)], a NaN, and so is the sum; [kp * e] is
    infinite, and no comparison with a NaN holds. *)
Lemma pid_diagonal_at_infinity :
  result_of (pid inf inf tracker) = Ok nan /\
  compute inf inf (pid_input tracker) = nan /\
  fmul (kp_of tracker) inf = inf /\
  feq (compute inf inf (pid_input tracker)) (fmul (kp_of tracker) inf) = false.
Proof. vm_compute. repeat split. Qed.

(** C6 (amended): [pid] returns
    [kp*error + kd1*(error-prev_error) + kd2*(error-prev_error)] for all
    floats, without touching the object; and for every finite error [e] (no
    infinity, no NaN) and finite gains, [pid(e, e)] equals [kp*e]: the two
    are the same float unless [kp*e] is a zero, when [pid(e, e)] is a zero
    too (possibly of the other sign, which [==] does not tell apart). *)
Theorem pid_formula_and_diagonal (s : PIDActionServer) :
  (forall error prev_error : float,
     pid error prev_error s
     = (Ok (compute error prev_error (pid_input s)), s, [])) /\
  (forall e : float,
     is_finite e = true -> finite_gains (pid_input s) ->
     exists v,
       result_of (pid e e s) = Ok v /\
       feq v (fmul (kp_of s) e) = true /\
       (is_zero (fmul (kp_of s) e) = false -> v = fmul (kp_of s) e)).
Proof.
  split; [intros; apply pid_compute |].
  intros e He Hg. rewrite pid_compute. cbn [result_of fst].
  exists (compute e e (pid_input s)). split; [reflexivity |].
  unfold kp_of, item0. destruct (pid_input s) as [[kp kd1] kd2]. cbn [fst].
  apply compute_diag; assumption.
Qed.

Lemma pid_formula_and_diagonal_witness :
  exists v,
    result_of (pid (of_int 5) (of_int 5) tracker) = Ok v /\
    feq v (fmul (kp_of tracker) (of_int 5)) = true /\
    (is_zero (fmul (kp_of tracker) (of_int 5)) = false ->
     v = fmul (kp_of tracker) (of_int 5)).
Proof.
  apply (proj2 (pid_formula_and_diagonal tracker) (of_int 5)).
  - reflexivity.
  - vm_compute. repeat split.
Defined.

(** C7: with the setpoint band (20000, 100000) of [__init__], the command of
    a TRACK tick has forward = 20 when the area is below 20000, forward = -20
    when it is above 100000, and forward = 0 when it lies in the band, the
    two bounds included. *)
Theorem track_forward_command (s : PIDActionServer) (a : float) (cmd : command) :
  setpoint_area s = (20000, 100000) ->
  _area s = Some a ->
  result_of (execute_track_body s) = Ok cmd ->
  (flt a (of_int 20000) = true -> forward_backward_velocity cmd = 20) /\
  (fgt a (of_int 100000) = true -> forward_backward_velocity cmd = -20) /\
  (fle (of_int 20000) a = true -> fle a (of_int 100000) = true ->
   forward_backward_velocity cmd = 0).
Proof.
  intros Hsp Ha Hok.
  destruct (track_tick_ok s cmd Hok) as (a' & Ha' & _ & _ & Hf & _).
  rewrite Ha in Ha'. injection Ha' as <-.
  rewrite Hf, Hsp. apply forward_of_spec.
Qed.

Example forward_at_bounds :
  forward_at 19999 = Ok 20 /\ forward_at 20000 = Ok 0 /\
  forward_at 100000 = Ok 0 /\ forward_at 100001 = Ok (-20).
Proof. vm_compute. repeat split. Qed.

Lemma track_forward_command_witness :
  forward_backward_velocity
    {| left_right_velocity := 0; forward_backward_velocity := 0;
       up_down_velocity := 50; yaw_velocity := 1 |} = 0.
Proof.
  apply (track_forward_command (with_area 20000) (of_int 20000)
           {| left_right_velocity := 0; forward_backward_velocity := 0;
              up_down_velocity := 50; yaw_velocity := 1 |});
    vm_compute; reflexivity.
Defined.

(** C8: whatever the errors held by the object, a TRACK tick that returns a
    command has its yaw within [-100, 100] and its vertical speed within
    [-50, 50], and 0 on an axis whose error is zero; and the tick returns a
    command unless a signal to clamp is a NaN ([int] raises ValueError) or
    the area was never assigned. *)
Theorem track_outputs_clamped (s : PIDActionServer) :
  (forall cmd : command,
     result_of (execute_track_body s) = Ok cmd ->
     - 100 <= yaw_velocity cmd <= 100 /\
     - 50 <= up_down_velocity cmd <= 50 /\
     (feq (_x_err s) (of_int 0) = true -> yaw_velocity cmd = 0) /\
     (feq (_y_err s) (of_int 0) = true -> up_down_velocity cmd = 0)) /\
  (forall e : exn,
     result_of (execute_track_body s) = Raise e ->
     (e = ValueError /\
      (is_nan (yaw_signal s) = true \/ is_nan (vertical_signal s) = true)) \/
     (e = AttributeError "_area" /\ _area s = None)).
Proof.
  pose proof (yaw_of_spec s) as Hy. pose proof (up_down_of_spec s) as Hu.
  split.
  - intros cmd Hok.
    destruct (track_tick_ok s cmd Hok) as (a & _ & Ey & Eu & _).
    rewrite Ey in Hy. rewrite Eu in Hu. tauto.
  - apply track_tick_raise_cases.
Qed.

Lemma track_outputs_clamped_witness :
  result_of (execute_track_body extreme)
  = Ok {| left_right_velocity := 0; forward_backward_velocity := 0;
          up_down_velocity := -50; yaw_velocity := 100 |} /\
  - 100 <= 100 <= 100 /\ - 50 <= - 50 <= 50.
Proof.
  split; [vm_compute; reflexivity |].
  destruct (proj1 (track_outputs_clamped extreme)
              {| left_right_velocity := 0; forward_backward_velocity := 0;
                 up_down_velocity := -50; yaw_velocity := 100 |})
    as (Hy & Hu & _); [vm_compute; reflexivity |].
  split; [exact Hy | exact Hu].
Defined.

(** ** The control loop under feedback *)

Section MainLoop.

Lemma execute_main_tick_eq (s : PIDActionServer) :
  execute_main_tick s =
  if _is_search s then (Ok None, s, [])
  else match execute_track_body s with
       | (Ok cmd, s', t) => (Ok (Some cmd), s', t)
       | (Raise e, s', t) => (Raise e, s', t)
       end.
Proof.
  cbv [execute_main_tick bind gets ret execute_search_body].
  destruct (_is_search s); [reflexivity |].
  destruct (execute_track_body s) as [[[cmd | e] s'] t]; [| reflexivity].
  cbn [app]. rewrite app_nil_r. reflexivity.
Qed.

Lemma main_tick_frame (s : PIDActionServer) :
  state_after (execute_main_tick s) = s.
Proof.
  rewrite execute_main_tick_eq.
  destruct (_is_search s); [reflexivity |].
  pose proof (track_tick_frame s) as H.
  destruct (execute_track_body s) as [[[cmd | e] s'] t]; exact H.
Qed.

Lemma run_snoc (ops : list op) (o : op) (s : PIDActionServer) :
  run (ops ++ [o]) s = step o (run ops s).
Proof. unfold run. rewrite fold_left_app. reflexivity. Qed.

Lemma step_feedback (msg : ProcessVar) (s : PIDActionServer) :
  step (Feedback msg) s =
  if feq (area msg) (of_int 0)
  then set_y_err (_prev_y_err s) (set_x_err (_prev_x_err s) (set_is_search true s))
  else set_y_err (fsub (of_int (snd (setpoint_center s))) (cy msg))
         (set_x_err (fsub (cx msg) (of_int (fst (setpoint_center s))))
            (set_area (area msg) (set_is_search false s))).
Proof.
  cbn [step]. destruct (feq (area msg) (of_int 0)) eqn:E.
  - rewrite (process_var_sub_cb_search msg s E). reflexivity.
  - rewrite (process_var_sub_cb_track msg s E). reflexivity.
Qed.

Lemma step_same_config (o : op) (s : PIDActionServer) : same_config s (step o s).
Proof.
  destruct o as [msg |].
  - rewrite step_feedback. destruct (feq (area msg) (of_int 0));
      cbn; repeat split.
  - cbn [step]. rewrite main_tick_frame. repeat split.
Qed.

Lemma run_same_config (ops : list op) (s : PIDActionServer) :
  same_config s (run ops s).
Proof.
  induction ops as [| o ops IH] using rev_ind.
  - repeat split.
  - rewrite run_snoc.
    pose proof (step_same_config o (run ops s)) as H.
    unfold same_config in *. intuition congruence.
Qed.



End MainLoop.



(** ** The composite outcome of the concurrent activities *)

(** C3 (counterexample): when only the CONTROL activity aborts, the
    composite outcome is [succeeded]. *)
Lemma control_abort_not_propagated :
  ~ (forall publish control : Smach.outcome,
       publish = Smach.aborted \/ control = Smach.aborted ->
       composite publish control = Smach.aborted).
Proof.
  intros H. specialize (H Smach.succeeded Smach.aborted (or_intror eq_refl)).
  discriminate H.
Qed.

(** C3 (amended): the composite outcome is [aborted] exactly when the
    STREAM activity (PUBLISH) reports [aborted], whatever the CONTROL
    activity reports, and [succeeded] otherwise. *)
Theorem composite_follows_publish (publish control : Smach.outcome) :
  composite publish control =
  match publish with
  | Smach.aborted => Smach.aborted
  | _ => Smach.succeeded
  end.
Proof. destruct publish, control; reflexivity. Qed.

(** ** The frame queue *)

Section FrameQueue.

Lemma Merge_snoc_left {A : Type} (x : A) (l1 l2 l : list A) :
  Merge l1 l2 l -> Merge (l1 ++ [x]) l2 (l ++ [x]).
Proof.
  induction 1; cbn; repeat constructor; assumption.
Qed.

Lemma Merge_snoc_right {A : Type} (x : A) (l1 l2 l : list A) :
  Merge l1 l2 l -> Merge l1 (l2 ++ [x]) (l ++ [x]).
Proof.
  induction 1; cbn; repeat constructor; assumption.
Qed.

Lemma Merge_In_left {A : Type} (x : A) (l1 l2 l : list A) :
  Merge l1 l2 l -> In x l1 -> In x l.
Proof.
  induction 1; cbn; intros Hin; auto.
  destruct Hin; auto.
Qed.

Lemma Merge_In_right {A : Type} (x : A) (l1 l2 l : list A) :
  Merge l1 l2 l -> In x l2 -> In x l.
Proof.
  induction 1; cbn; intros Hin; auto.
  destruct Hin; auto.
Qed.

Lemma Merge_NoDup_disjoint {A : Type} (l1 l2 l : list A) :
  Merge l1 l2 l -> NoDup l -> forall x, In x l2 -> ~ In x l1.
Proof.
  induction 1 as [| y l1 l2 l HM IH | y l1 l2 l HM IH]; intros Hnd x H2 H1.
  - destruct H2.
  - inversion Hnd as [| ? ? Hy Hnd']; subst.
    destruct H1 as [-> | H1].
    + apply Hy. eapply Merge_In_right; eassumption.
    + exact (IH Hnd' x H2 H1).
  - inversion Hnd as [| ? ? Hy Hnd']; subst.
    destruct H2 as [-> | H2].
    + apply Hy. eapply Merge_In_left; eassumption.
    + exact (IH Hnd' x H2 H1).
Qed.

Lemma offered_app (evs1 evs2 : list node_event) :
  offered (evs1 ++ evs2) = offered evs1 ++ offered evs2.
Proof.
  induction evs1 as [| [imgmsg |] evs1 IH]; cbn [offered app]; auto.
  destruct (decoded imgmsg); cbn [app]; rewrite IH; reflexivity.
Qed.

Lemma full_iff (q : PyQueue.Queue frame) :
  PyQueue.maxsize q = queue_capacity ->
  PyQueue.full q = (queue_capacity <=? PyQueue.qsize q).
Proof. unfold PyQueue.full, queue_capacity. intros ->. reflexivity. Qed.

Lemma node_step_inv (evs : list node_event) (e : node_event) (n : node) :
  node_inv evs n -> node_inv (evs ++ [e]) (node_step n e).
Proof.
  intros [Hm Hb Hk HM].
  destruct n as [[mx its] cons drp blk].
  unfold PyQueue.qsize in Hb. cbn in Hm, Hb, Hk, HM. subst mx blk.
  destruct e as [imgmsg |]; cbn [node_step image_queue].
  - unfold image_callback, PyQueue.put. rewrite (full_iff {| PyQueue.maxsize := queue_capacity; PyQueue.items := its |} eq_refl).
    unfold PyQueue.qsize. cbn [PyQueue.items PyQueue.maxsize].
    destruct (decoded imgmsg) as [img |] eqn:Ed.
    + destruct (Z.leb_spec queue_capacity (Z.of_nat (List.length its))) as [Hf | Hf];
        cbn [negb].
      * split; unfold PyQueue.qsize; cbn; auto.
        rewrite offered_app. cbn [offered]. rewrite Ed.
        apply Merge_snoc_right. exact HM.
      * split; unfold PyQueue.qsize; cbn [image_queue PyQueue.items PyQueue.maxsize
                                          consumed dropped blocked]; auto.
        -- rewrite length_app, Nat2Z.inj_add. cbn [List.length]. lia.
        -- rewrite offered_app. cbn [offered]. rewrite Ed.
           rewrite app_assoc. apply Merge_snoc_left. exact HM.
    + split; unfold PyQueue.qsize; cbn; auto.
      rewrite offered_app. cbn [offered]. rewrite Ed, app_nil_r. exact HM.
  - unfold run_iteration, PyQueue.empty, PyQueue.get, PyQueue.qsize.
    cbn [PyQueue.items PyQueue.maxsize].
    destruct its as [| f rest].
    + split; unfold PyQueue.qsize; cbn; auto.
      rewrite offered_app. cbn [offered]. rewrite !app_nil_r in *. exact HM.
    + change (Z.of_nat (List.length (f :: rest)) =? 0) with false. cbn [negb].
      split; unfold PyQueue.qsize;
        cbn [image_queue PyQueue.items PyQueue.maxsize consumed dropped blocked];
        auto.
      * cbn [List.length] in Hb. lia.
      * rewrite offered_app. cbn [offered]. rewrite app_nil_r, <- app_assoc.
        exact HM.
Qed.

Lemma node_run_snoc (evs : list node_event) (e : node_event) (n : node) :
  node_run (evs ++ [e]) n = node_step (node_run evs n) e.
Proof. unfold node_run. rewrite fold_left_app. reflexivity. Qed.

Lemma node_run_inv (evs : list node_event) :
  node_inv evs (node_run evs node_init).
Proof.
  induction evs as [| e evs IH] using rev_ind.
  - split; cbn; try reflexivity; [discriminate | constructor].
  - rewrite node_run_snoc. apply node_step_inv. exact IH.
Qed.

Lemma image_callback_full (q : PyQueue.Queue frame) (imgmsg : Imgmsg) :
  PyQueue.full q = true ->
  fst (image_callback q imgmsg) = q /\
  (forall f, snd (image_callback q imgmsg) <> Enqueued f) /\
  snd (image_callback q imgmsg) <> Blocked.
Proof.
  intros Hf. unfold image_callback. rewrite Hf.
  destruct (decoded imgmsg); cbn; repeat split; discriminate.
Qed.

End FrameQueue.

(** C9: under every schedule of frame arrivals and consumer iterations the
    queue holds at most 5 frames and [put] never blocks; a callback that
    finds the queue full leaves it as it was; the frames taken by the
    consumer followed by those still queued, and the frames dropped, are
    the offered frames split in two with the order kept (so frames leave
    in the order they were accepted); and, the offered frames being
    pairwise distinct, no dropped frame reaches the consumer or the queue. *)
Theorem frame_queue_bounded_fifo (evs : list node_event) :
  let n := node_run evs node_init in
  PyQueue.qsize (image_queue n) <= queue_capacity /\
  blocked n = false /\
  (forall imgmsg, PyQueue.full (image_queue n) = true ->
                  fst (image_callback (image_queue n) imgmsg) = image_queue n) /\
  Merge (consumed n ++ PyQueue.items (image_queue n)) (dropped n) (offered evs) /\
  (NoDup (offered evs) ->
   forall f, In f (dropped n) ->
             ~ In f (consumed n ++ PyQueue.items (image_queue n))).
Proof.
  intros n. destruct (node_run_inv evs) as [Hm Hb Hk HM]. fold n in Hm, Hb, Hk, HM.
  repeat split; try assumption.
  - intros imgmsg Hf. apply image_callback_full. exact Hf.
  - intros Hnd. eapply Merge_NoDup_disjoint; eassumption.
Qed.

Example burst_run :
  let n := node_run burst node_init in
  consumed n = [([1], 1); ([2], 2)] /\
  PyQueue.items (image_queue n) = [([3], 3); ([4], 4); ([5], 5)] /\
  dropped n = [([6], 6); ([7], 7)].
Proof. vm_compute. repeat split. Qed.

Lemma frame_queue_bounded_fifo_witness :
  ~ In ([6], 6) (consumed (node_run burst node_init)
                 ++ PyQueue.items (image_queue (node_run burst node_init))).
Proof.
  apply (proj2 (proj2 (proj2 (proj2 (frame_queue_bounded_fifo burst))))).
  - vm_compute. repeat constructor; cbn; intuition discriminate.
  - vm_compute. left. reflexivity.
Defined.

(** ** The CONNECT stage *)

Section Connect.

Lemma execute_init_loop_cons (start_time : float) (p : probe)
    (rest : list probe) (s : PIDActionServer) :
  _uav s = None ->
  execute_init_loop start_time (p :: rest) s =
  match init_iteration start_time p s with
  | (Ok _, s1, t1) =>
      match execute_init_loop start_time rest s1 with
      | (r, s2, t2) => (r, s2, t1 ++ t2)
      end
  | (Raise e, s1, t1) => (Raise e, s1, t1)
  end.
Proof.
  intros Hu. cbn [execute_init_loop]. unfold bind at 1. unfold gets at 1.
  rewrite Hu. unfold bind at 1.
  destruct (init_iteration start_time p s) as [[[[] | e] s1] t1]; [| reflexivity].
  destruct (execute_init_loop start_time rest s1) as [[r s2] t2]. reflexivity.
Qed.

Lemma init_iteration_raises (start_time : float) (p : probe) (s : PIDActionServer) :
  preempt_requested p = false ->
  fgt (fsub (clock p) start_time) (of_int deadline) = false ->
  connect p = Connect_raises ->
  init_iteration start_time p s =
  (Raise DriverError, s,
   [Connect_uav; Print_trying_again (fsub (clock p) start_time)]).
Proof.
  intros Hp Hd Hc. unfold init_iteration. rewrite Hp, Hd, Hc. reflexivity.
Qed.

End Connect.

(** C4: with no preempt pending and the deadline not reached, a call of
    [connect_uav()] that raises ends [execute_init_cb] at once: the message
    "Trying again..." is printed, the exception is raised again, and the
    probes that follow (where a connection might succeed) are never used,
    so there is one attempt and no other. *)
Theorem connect_failure_ends_stage (start_time : float) (p : probe)
    (rest : list probe) (s : PIDActionServer) :
  _uav s = None ->
  preempt_requested p = false ->
  fgt (fsub (clock p) start_time) (of_int deadline) = false ->
  connect p = Connect_raises ->
  execute_init_cb start_time (p :: rest) s =
  (Raise DriverError, s,
   [Connect_uav; Print_trying_again (fsub (clock p) start_time)]) /\
  attempts (calls (execute_init_cb start_time (p :: rest) s)) = 1%nat.
Proof.
  intros Hu Hp Hd Hc. unfold execute_init_cb.
  rewrite (execute_init_loop_cons _ _ _ _ Hu).
  rewrite (init_iteration_raises _ _ _ Hp Hd Hc). split; reflexivity.
Qed.

Lemma connect_failure_ends_stage_witness :
  execute_init_cb (of_int 0) [failing; succeeding] tracker =
  (Raise DriverError, tracker,
   [Connect_uav; Print_trying_again (fsub (clock failing) (of_int 0))]) /\
  attempts (calls (execute_init_cb (of_int 0) [failing; succeeding] tracker)) = 1%nat.
Proof.
  apply (connect_failure_ends_stage (of_int 0) failing [succeeding] tracker);
    reflexivity.
Defined.

(** C5: at a check point where a preempt is pending and the deadline has
    passed, the callback on the object as [__init__] makes it raises
    AttributeError while formatting the "Preempted" message, before
    [set_preempted()] is called; and were the attribute [_action_name] set,
    [set_preempted()] would be followed by [set_aborted()] in the same
    iteration and by another call of [connect_uav()]. *)
Theorem preempt_with_deadline_passed (start_time : float) (p : probe)
    (rest : list probe) (s : PIDActionServer) :
  _uav s = None ->
  preempt_requested p = true ->
  fgt (fsub (clock p) start_time) (of_int deadline) = true ->
  (_action_name s = None ->
   execute_init_cb start_time (p :: rest) s =
   (Raise (AttributeError "_action_name"), s, [])) /\
  (forall n, _action_name s = Some n ->
   exists r s' t,
     execute_init_cb start_time (p :: rest) s =
     (r, s', Loginfo (n ++ " Preempted") :: Set_preempted ::
             Loginfo (n ++ " Aborted") :: Set_aborted :: Connect_uav :: t)).
Proof.
  intros Hu Hp Hd. unfold execute_init_cb.
  rewrite (execute_init_loop_cons _ _ _ _ Hu). split.
  - intros Hn. unfold init_iteration. rewrite Hp.
    cbv [bind getattr]. rewrite Hn. reflexivity.
  - intros n Hn. unfold init_iteration. rewrite Hp, Hd.
    cbv [bind getattr emit ret raise assign].
    repeat (rewrite Hn; cbv beta iota). cbn [app].
    destruct (connect p) as [| | u t ok]; cbn [app].
    + eexists _, _, _. reflexivity.
    + destruct (execute_init_loop start_time rest (set_uav None s)) as [[r s2] t2].
      eexists _, _, _. reflexivity.
    + destruct ok.
      * destruct (execute_init_loop start_time rest
                    (set_connect_start t (set_uav (Some u) s))) as [[r s2] t2].
        eexists _, _, _. reflexivity.
      * eexists _, _, _. reflexivity.
Qed.

Lemma preempt_with_deadline_passed_witness :
  execute_init_cb (of_int 0) [late_preempt] tracker =
  (Raise (AttributeError "_action_name"), tracker, []).
Proof.
  apply (preempt_with_deadline_passed (of_int 0) late_preempt [] tracker);
    reflexivity.
Defined.

(** * Further properties *)

(** ** Signs of the PID signals *)

Section Signs.

Lemma has_sign_sign_of (x : float) : is_nan x = false -> has_sign (sign_of x) x.
Proof. destruct x; cbn; congruence. Qed.

Lemma rounded_has_sign (s : bool) (x : float) : rounded s x -> has_sign s x.
Proof. intros []; reflexivity. Qed.

Lemma fsub_zero_r (x : float) : fsub x (S754_zero false) = x.
Proof. destruct x as [[] | | |]; reflexivity. Qed.

Lemma fmul_positive_rounded (s : bool) (m : positive) (e : Z) (x : float) :
  has_sign s x -> rounded s (fmul (S754_finite false m e) x).
Proof.
  destruct x as [s' | s' | | s' mx ex]; cbn [has_sign]; intros H;
    try contradiction; subst s'; cbn [fmul SFmul xorb].
  - constructor.
  - constructor.
  - apply binary_round_aux_rounded. lia.
Qed.

Lemma shl_align_fst_pos (m : positive) (e e' : Z) :
  0 < Z.pos (fst (shl_align m e e')).
Proof. lia. Qed.

Lemma fadd_rounded (s : bool) (a b : float) :
  rounded s a -> rounded s b -> rounded s (fadd a b).
Proof.
  intros Ha Hb.
  destruct Ha as [| | ma ea Hma], Hb as [| | mb eb Hmb];
    try (destruct s; cbn; constructor; assumption).
  unfold fadd, SFadd.
  set (za := Z.pos (fst (shl_align ma ea (Z.min ea eb)))).
  set (zb := Z.pos (fst (shl_align mb eb (Z.min ea eb)))).
  assert (Hza : 0 < za) by (unfold za; lia).
  assert (Hzb : 0 < zb) by (unfold zb; lia).
  destruct s; cbn [cond_Zopp].
  - destruct (- za + - zb) as [| p | p] eqn:E; try lia.
    cbn [binary_normalize]. apply binary_round_rounded.
  - destruct (za + zb) as [| p | p] eqn:E; try lia.
    cbn [binary_normalize]. apply binary_round_rounded.
Qed.

(** With positive gains and a previous error of 0, the PID signal has the
    sign of the error (and is a number whenever the error is). *)
Lemma compute_rounded (s : bool) (e : float) (g : float * float * float) :
  positive_gains g -> has_sign s e ->
  rounded s (compute e (S754_zero false) g).
Proof.
  destruct g as [[kp kd1] kd2].
  intros ((mp & ep & ->) & (m1 & e1 & ->) & (m2 & e2 & ->)) He.
  cbn [compute]. rewrite fsub_zero_r.
  repeat apply fadd_rounded; apply fmul_positive_rounded; exact He.
Qed.

(** Clamping and truncation keep the sign. *)
Lemma py_int_np_clip_sign (s : bool) (v : float) (mh : positive) (eh : Z) :
  rounded s v ->
  match py_int (np_clip v (S754_finite true mh eh) (S754_finite false mh eh)) with
  | Ok z => if s then z <= 0 else 0 <= z
  | Raise _ => False
  end.
Proof.
  assert (Hs : forall m e, 0 <= Z.shiftl (Z.pos m) e)
    by (intros; apply Z.shiftl_nonneg; lia).
  intros [| | m e Hm]; unfold np_clip, flt, fgt, SFltb; cbn [is_nan].
  - destruct s; cbn; lia.
  - destruct s; cbn; pose proof (Hs mh eh); lia.
  - destruct s; cbn [SFcompare].
    + destruct (IntDef.Z.compare e eh);
        try destruct (CompOpp (PosDef.Pos.compare_cont Eq m mh));
        cbn; pose proof (Hs mh eh); pose proof (Hs m e); lia.
    + destruct (IntDef.Z.compare eh e);
        try destruct (PosDef.Pos.compare_cont Eq mh m);
        cbn; pose proof (Hs mh eh); pose proof (Hs m e); lia.
Qed.

End Signs.

(** ** Reachable states of the server *)

Section Reachable.

Lemma init_same_config (name : string) (ops : list op) :
  let s := run ops (init name) in
  _prev_x_err s = of_int 0 /\ _prev_y_err s = of_int 0 /\
  pid_input s = (f0_1, f0_1, f0_1) /\
  setpoint_area s = (20000, 100000) /\ setpoint_center s = (480, 360).
Proof.
  intros s. destruct (run_same_config ops (init name))
    as (_ & _ & _ & Ha & Hc & Hg & Hx & Hy & _).
  fold s in Ha, Hc, Hg, Hx, Hy. rewrite Ha, Hc, Hg, Hx, Hy. repeat split.
Qed.

Lemma f0_1_positive_gains : positive_gains (f0_1, f0_1, f0_1).
Proof. repeat split; eexists _, _; reflexivity. Qed.






End Reachable.

(** X1: no sequence of detection messages and control ticks changes the
    previous errors (they stay 0), the gains or the setpoints of the server
    made by [__init__]. *)
Theorem reachable_config (name : string) (ops : list op) :
  let s := run ops (init name) in
  _prev_x_err s = of_int 0 /\ _prev_y_err s = of_int 0 /\
  pid_input s = (f0_1, f0_1, f0_1) /\
  setpoint_area s = (20000, 100000) /\ setpoint_center s = (480, 360).
Proof. apply init_same_config. Qed.

(** X2: after any history, a message with area 0 puts the server in SEARCH
    mode with both errors equal to 0: the errors of the last detection are
    not kept. *)
Theorem no_detection_after_history (name : string) (ops : list op)
    (msg : ProcessVar) :
  feq (area msg) (of_int 0) = true ->
  let s := run (ops ++ [Feedback msg]) (init name) in
  _is_search s = true /\ _x_err s = of_int 0 /\ _y_err s = of_int 0.
Proof.
  intros Hz s. unfold s. rewrite run_snoc, step_feedback, Hz.
  destruct (init_same_config name ops) as (Hx & Hy & _).
  cbn. rewrite Hx, Hy. repeat split.
Qed.

Lemma no_detection_after_history_witness :
  _is_search (run (history ++ [Feedback no_detection]) tracker) = true /\
  _x_err (run (history ++ [Feedback no_detection]) tracker) = of_int 0 /\
  _y_err (run (history ++ [Feedback no_detection]) tracker) = of_int 0.
Proof.
  apply (no_detection_after_history "pid_tracker" history no_detection).
  reflexivity.
Defined.

(** X3: after any history, a message with a non-zero area puts the server
    in TRACK mode with the area of the message, [x_err = cx - 480] and
    [y_err = 360 - cy]: the feedback fields depend on the last detection
    only. *)
Theorem detection_after_history (name : string) (ops : list op)
    (msg : ProcessVar) :
  feq (area msg) (of_int 0) = false ->
  let s := run (ops ++ [Feedback msg]) (init name) in
  _is_search s = false /\ _area s = Some (area msg) /\
  _x_err s = fsub (cx msg) (of_int 480) /\
  _y_err s = fsub (of_int 360) (cy msg).
Proof.
  intros Hz s. unfold s. rewrite run_snoc, step_feedback, Hz.
  destruct (init_same_config name ops) as (_ & _ & _ & _ & Hc).
  cbn. rewrite Hc. repeat split.
Qed.

Lemma detection_after_history_witness :
  _is_search (run (history ++ [Feedback detection]) tracker) = false /\
  _area (run (history ++ [Feedback detection]) tracker) = Some (area detection) /\
  _x_err (run (history ++ [Feedback detection]) tracker)
  = fsub (cx detection) (of_int 480) /\
  _y_err (run (history ++ [Feedback detection]) tracker)
  = fsub (of_int 360) (cy detection).
Proof.
  apply (detection_after_history "pid_tracker" history detection).
  reflexivity.
Defined.



(** X5: in every state reached from [__init__], the command of a TRACK tick
    turns towards the target: yaw is >= 0 for a positive [x_err] and <= 0
    for a negative one, and the vertical speed follows the sign of [y_err]
    in the same way. *)
Theorem command_follows_error_sign (name : string) (ops : list op)
    (cmd : command) :
  let s := run ops (init name) in
  result_of (execute_track_body s) = Ok cmd ->
  (fgt (_x_err s) (of_int 0) = true -> 0 <= yaw_velocity cmd) /\
  (flt (_x_err s) (of_int 0) = true -> yaw_velocity cmd <= 0) /\
  (fgt (_y_err s) (of_int 0) = true -> 0 <= up_down_velocity cmd) /\
  (flt (_y_err s) (of_int 0) = true -> up_down_velocity cmd <= 0).
Proof.
  intros s Hok.
  destruct (init_same_config name ops) as (Hpx & Hpy & Hg & _).
  fold s in Hpx, Hpy, Hg.
  assert (Hgp : positive_gains (pid_input s))
    by (rewrite Hg; apply f0_1_positive_gains).
  destruct (track_tick_ok s cmd Hok) as (a & _ & Ey & Eu & _).
  assert (Hsign : forall x, (fgt x (of_int 0) = true -> sign_of x = false /\ is_nan x = false /\ fne x (of_int 0) = true) /\
                            (flt x (of_int 0) = true -> sign_of x = true /\ is_nan x = false /\ fne x (of_int 0) = true)).
  { intros x. change (of_int 0) with (S754_zero false).
    destruct x as [[] | [] | | [] m e]; cbn; split; intros H;
      try discriminate H; repeat split. }
  assert (Hyaw : forall sg, sign_of (_x_err s) = sg -> is_nan (_x_err s) = false ->
                            fne (_x_err s) (of_int 0) = true ->
                            if sg then yaw_velocity cmd <= 0 else 0 <= yaw_velocity cmd).
  { intros sg Hsg Hn Hne. unfold yaw_of in Ey. rewrite Hne in Ey.
    assert (R : rounded sg (yaw_signal s)).
    { unfold yaw_signal. rewrite Hpx. apply compute_rounded; [exact Hgp |].
      rewrite <- Hsg. apply has_sign_sign_of. exact Hn. }
    pose proof (py_int_np_clip_sign sg (yaw_signal s) 7036874417766400 (-46) R) as H.
    change (S754_finite true 7036874417766400 (-46)) with (of_int (-100)) in H.
    change (S754_finite false 7036874417766400 (-46)) with (of_int 100) in H.
    rewrite Ey in H. exact H. }
  assert (Hud : forall sg, sign_of (_y_err s) = sg -> is_nan (_y_err s) = false ->
                           fne (_y_err s) (of_int 0) = true ->
                           if sg then up_down_velocity cmd <= 0
                           else 0 <= up_down_velocity cmd).
  { intros sg Hsg Hn Hne. unfold up_down_of in Eu. rewrite Hne in Eu.
    assert (R : rounded sg (vertical_signal s)).
    { unfold vertical_signal. rewrite Hpy.
      change (of_int 3) with (S754_finite false 6755399441055744 (-51)).
      apply fmul_positive_rounded, rounded_has_sign, compute_rounded;
        [exact Hgp |].
      rewrite <- Hsg. apply has_sign_sign_of. exact Hn. }
    pose proof (py_int_np_clip_sign sg (vertical_signal s) 7036874417766400 (-47) R) as H.
    change (S754_finite true 7036874417766400 (-47)) with (of_int (-50)) in H.
    change (S754_finite false 7036874417766400 (-47)) with (of_int 50) in H.
    rewrite Eu in H. exact H. }
  repeat split; intros H.
  - destruct (proj1 (Hsign (_x_err s)) H) as (Hs & Hn & Hne).
    exact (Hyaw false Hs Hn Hne).
  - destruct (proj2 (Hsign (_x_err s)) H) as (Hs & Hn & Hne).
    exact (Hyaw true Hs Hn Hne).
  - destruct (proj1 (Hsign (_y_err s)) H) as (Hs & Hn & Hne).
    exact (Hud false Hs Hn Hne).
  - destruct (proj2 (Hsign (_y_err s)) H) as (Hs & Hn & Hne).
    exact (Hud true Hs Hn Hne).
Qed.

Lemma command_follows_error_sign_witness :
  0 <= 1 /\ 0 <= 50.
Proof.
  destruct (command_follows_error_sign "pid_tracker" history
              {| left_right_velocity := 0; forward_backward_velocity := 0;
                 up_down_velocity := 50; yaw_velocity := 1 |})
    as (Hy & _ & Hu & _); [vm_compute; reflexivity |].
  split; [apply Hy | apply Hu]; vm_compute; reflexivity.
Defined.



(** ** More on the CONNECT stage *)

Section ConnectMore.

Variable start_time : float.

Lemma set_uav_None_id (s : PIDActionServer) : _uav s = None -> set_uav None s = s.
Proof. destruct s; cbn; intros ->; reflexivity. Qed.

Lemma init_iteration_quiet (p : probe) (s : PIDActionServer) :
  quiet start_time p -> init_iteration start_time p s = attempt start_time p s.
Proof.
  intros [Hp Hd]. unfold init_iteration, attempt. rewrite Hp, Hd.
  destruct (connect p) as [| | u t []]; reflexivity.
Qed.

Lemma init_iteration_cancel (p : probe) (s : PIDActionServer) :
  _action_name s = None ->
  preempt_requested p = true \/
  fgt (fsub (clock p) start_time) (of_int deadline) = true ->
  init_iteration start_time p s = (Raise (AttributeError "_action_name"), s, []).
Proof.
  intros Hn H. unfold init_iteration.
  destruct (preempt_requested p) eqn:Hp.
  - cbv [bind getattr]. rewrite Hn. reflexivity.
  - destruct H as [H | H]; [discriminate H |]. rewrite H.
    cbv [bind getattr ret]. rewrite Hn. reflexivity.
Qed.

Lemma init_iteration_named (n : string) (p : probe) (s : PIDActionServer) :
  _action_name s = Some n ->
  init_iteration start_time p s =
  match attempt start_time p s with
  | (r, s', t) => (r, s', announcements n start_time p ++ t)
  end.
Proof.
  intros Hn. unfold init_iteration, attempt, announcements.
  destruct (preempt_requested p),
           (fgt (fsub (clock p) start_time) (of_int deadline));
    cbv [bind getattr emit ret raise assign];
    repeat (rewrite Hn; cbv beta iota);
    destruct (connect p) as [| | u t []]; reflexivity.
Qed.

Lemma attempt_action_name (p : probe) (s : PIDActionServer) :
  _action_name (state_after (attempt start_time p s)) = _action_name s.
Proof. unfold attempt. destruct (connect p) as [| | u t []]; reflexivity. Qed.

(** An attempt that returns either found no vehicle, or stored one and
    called [set_succeeded()] last; one that raises made no such call. *)
Lemma attempt_cases (p : probe) (s : PIDActionServer) :
  match attempt start_time p s with
  | (Ok _, s', t) =>
      (_uav s' = None /\ t = [Connect_uav]) \/
      (exists u, _uav s' = Some u /\
                 t = [Connect_uav; Streamon; established; Set_succeeded])
  | (Raise e, s', t) =>
      e = DriverError /\ attempts t = 1%nat /\
      filter is_set_succeeded t = [] /\
      filter (fun e => is_set_preempted e || is_set_aborted e) t = []
  end.
Proof.
  unfold attempt. destruct (connect p) as [| | u t []]; cbn; eauto 6.
Qed.

Lemma announcements_quiet (n : string) (p : probe) :
  attempts (announcements n start_time p) = 0%nat /\
  filter is_set_succeeded (announcements n start_time p) = [].
Proof.
  unfold announcements.
  destruct (preempt_requested p), (fgt _ _); split; reflexivity.
Qed.

Lemma quiet_or_cancel (p : probe) :
  quiet start_time p \/
  (preempt_requested p = true \/
   fgt (fsub (clock p) start_time) (of_int deadline) = true).
Proof.
  unfold quiet. destruct (preempt_requested p); [right; left; reflexivity |].
  destruct (fgt _ _); [right; right; reflexivity | left; split; reflexivity].
Qed.

Lemma execute_init_loop_connected (script : list probe) (s : PIDActionServer)
    (u : Uav) :
  _uav s = Some u -> execute_init_loop start_time script s = (Ok Returned, s, []).
Proof.
  intros Hu. destruct script; cbn [execute_init_loop];
    unfold bind, gets; rewrite Hu; reflexivity.
Qed.

Lemma execute_init_loop_nil (s : PIDActionServer) :
  _uav s = None -> execute_init_loop start_time [] s = (Ok Running, s, []).
Proof.
  intros Hu. cbn [execute_init_loop]. unfold bind, gets. rewrite Hu. reflexivity.
Qed.

End ConnectMore.

Section ConnectRuns.

Variable start_time : float.

(** One step of the loop on a server not yet connected, whatever the
    probe: the calls of the two checks, then the attempt; or AttributeError
    when a check fires and the name is missing. *)
Lemma execute_init_loop_step (p : probe) (rest : list probe)
    (s : PIDActionServer) :
  _uav s = None ->
  (exists pre r s1 t1,
     init_iteration start_time p s = (r, s1, pre ++ t1) /\
     attempt start_time p s = (r, s1, t1) /\
     attempts pre = 0%nat /\ filter is_set_succeeded pre = [] /\
     (_action_name s = None -> pre = [])) \/
  (_action_name s = None /\
   init_iteration start_time p s = (Raise (AttributeError "_action_name"), s, [])).
Proof.
  intros Hu. destruct (_action_name s) as [n |] eqn:Hn.
  - left. rewrite (init_iteration_named start_time n p s Hn).
    destruct (attempt start_time p s) as [[r s1] t1].
    destruct (announcements_quiet start_time n p) as [Ha Hf].
    exists (announcements n start_time p), r, s1, t1.
    repeat split; try assumption. discriminate.
  - destruct (quiet_or_cancel start_time p) as [Hq | Hc].
    + left. rewrite (init_iteration_quiet start_time p s Hq).
      destruct (attempt start_time p s) as [[r s1] t1].
      exists [], r, s1, t1. repeat split.
    + right. split; [reflexivity |].
      apply init_iteration_cancel; assumption.
Qed.

End ConnectRuns.

(** X7: on a server built by [__init__] ([_action_name] never assigned),
    whatever the clock, the preempt flag and the driver do, [execute_init_cb]
    calls neither [set_preempted()] nor [set_aborted()]. *)
Theorem connect_never_reports_cancel (start_time : float) (script : list probe) :
  forall s : PIDActionServer,
  _action_name s = None ->
  filter (fun e => is_set_preempted e || is_set_aborted e)
         (calls (execute_init_cb start_time script s)) = [].
Proof.
  unfold execute_init_cb.
  induction script as [| p rest IH]; intros s Hn.
  - destruct (_uav s) as [u |] eqn:Hu.
    + rewrite (execute_init_loop_connected start_time _ s u Hu). reflexivity.
    + rewrite (execute_init_loop_nil start_time s Hu). reflexivity.
  - destruct (_uav s) as [u |] eqn:Hu.
    + rewrite (execute_init_loop_connected start_time _ s u Hu). reflexivity.
    + rewrite (execute_init_loop_cons _ _ _ _ Hu).
      destruct (execute_init_loop_step start_time p rest s Hu)
        as [(pre & r & s1 & t1 & Ei & Ea & _ & _ & Hpre) | [_ Ei]].
      * rewrite Ei, (Hpre Hn). cbn [app].
        pose proof (attempt_cases start_time p s) as Hc.
        pose proof (attempt_action_name start_time p s) as Hk.
        rewrite Ea in Hc, Hk. cbn [state_after fst snd] in Hk.
        destruct r as [[] | e].
        -- assert (Hn1 : _action_name s1 = None) by congruence.
           specialize (IH s1 Hn1).
           destruct (execute_init_loop start_time rest s1) as [[r2 s2] t2].
           cbn [calls snd] in IH |- *. rewrite filter_app, IH, app_nil_r.
           destruct Hc as [[_ ->] | (u & _ & ->)]; reflexivity.
        -- cbn [calls snd]. apply Hc.
      * rewrite Ei. reflexivity.
Qed.

Lemma connect_never_reports_cancel_witness :
  filter (fun e => is_set_preempted e || is_set_aborted e)
         (calls (execute_init_cb (of_int 0) [soft_failure; late_preempt] tracker))
  = [].
Proof.
  apply (connect_never_reports_cancel (of_int 0) [soft_failure; late_preempt] tracker).
  reflexivity.
Defined.

(** X8: calls of [connect_uav()] that return [None] are retried at once:
    after [k] of them (no preempt pending, deadline not reached), a call that
    returns a vehicle whose [streamon()] succeeds ends the callback with the
    vehicle stored, [k + 1] attempts made and [set_succeeded()] as the last
    call; later probes are not used. *)
Theorem connect_retries_until_success (start_time : float)
    (nones : list probe) (p : probe) (rest : list probe)
    (u : Uav) (t : float) (s : PIDActionServer) :
  _uav s = None ->
  Forall (fun q => quiet start_time q /\ connect q = Connect_none) nones ->
  quiet start_time p -> connect p = Connect_ok u t true ->
  execute_init_cb start_time (nones ++ p :: rest) s =
  (Ok Returned, set_connect_start t (set_uav (Some u) s),
   repeat Connect_uav (List.length nones)
   ++ [Connect_uav; Streamon; established; Set_succeeded]).
Proof.
  intros Hu Hnones Hq Hc. unfold execute_init_cb.
  induction Hnones as [| q nones [Hqq Hqc] _ IH]; cbn [app List.length repeat].
  - rewrite (execute_init_loop_cons _ _ _ _ Hu).
    rewrite (init_iteration_quiet _ _ _ Hq). unfold attempt. rewrite Hc.
    rewrite (execute_init_loop_connected start_time rest
               (set_connect_start t (set_uav (Some u) s)) u eq_refl).
    reflexivity.
  - rewrite (execute_init_loop_cons _ _ _ _ Hu).
    rewrite (init_iteration_quiet _ _ _ Hqq). unfold attempt. rewrite Hqc.
    rewrite (set_uav_None_id s Hu), IH. reflexivity.
Qed.

Lemma connect_retries_until_success_witness :
  execute_init_cb (of_int 0) ([soft_failure; soft_failure] ++ succeeding :: [failing])
    tracker =
  (Ok Returned, set_connect_start (of_int 2) (set_uav (Some Tello) tracker),
   repeat Connect_uav 2 ++ [Connect_uav; Streamon; established; Set_succeeded]).
Proof.
  apply (connect_retries_until_success (of_int 0) [soft_failure; soft_failure]
           succeeding [failing] Tello (of_int 2) tracker).
  - reflexivity.
  - repeat constructor.
  - split; reflexivity.
  - reflexivity.
Defined.

(** X9: however a run of [execute_init_cb] goes, when the callback returns
    the vehicle handle is set; while the loop is still running it is not,
    and every probe so far was spent on one call of [connect_uav()]; and
    [set_succeeded()] is called at most once. *)
Theorem connect_postcondition (start_time : float) (script : list probe) :
  forall s : PIDActionServer,
  (result_of (execute_init_cb start_time script s) = Ok Returned ->
   _uav (state_after (execute_init_cb start_time script s)) <> None) /\
  (result_of (execute_init_cb start_time script s) = Ok Running ->
   _uav (state_after (execute_init_cb start_time script s)) = None /\
   attempts (calls (execute_init_cb start_time script s)) = List.length script) /\
  (List.length (filter is_set_succeeded
                  (calls (execute_init_cb start_time script s))) <= 1)%nat.
Proof.
  unfold execute_init_cb.
  induction script as [| p rest IH]; intros s.
  - destruct (_uav s) as [u |] eqn:Hu.
    + rewrite (execute_init_loop_connected start_time _ s u Hu). cbn.
      repeat split; try congruence; try discriminate; lia.
    + rewrite (execute_init_loop_nil start_time s Hu). cbn.
      repeat split; try congruence; try discriminate; lia.
  - destruct (_uav s) as [u |] eqn:Hu.
    + rewrite (execute_init_loop_connected start_time _ s u Hu). cbn.
      repeat split; try congruence; try discriminate; lia.
    + rewrite (execute_init_loop_cons _ _ _ _ Hu).
      destruct (execute_init_loop_step start_time p rest s Hu)
        as [(pre & r & s1 & t1 & Ei & Ea & Hpa & Hps & _) | [_ Ei]].
      * rewrite Ei.
        pose proof (attempt_cases start_time p s) as Hc. rewrite Ea in Hc.
        destruct r as [[] | e].
        -- destruct Hc as [[Hn ->] | (u & Hsome & ->)].
           ++ specialize (IH s1).
              destruct (execute_init_loop start_time rest s1) as [[r2 s2] t2].
              cbn [result_of state_after calls fst snd] in IH |- *.
              destruct IH as (H1 & H2 & H3).
              split; [exact H1 |]. split.
              ** intros Hr. destruct (H2 Hr) as [Hn2 Ha2]. split; [exact Hn2 |].
                 unfold attempts in *. rewrite !filter_app, !length_app.
                 cbn [filter List.length]. rewrite Hpa, Ha2. reflexivity.
              ** rewrite !filter_app, !length_app, Hps.
                 cbn [filter is_set_succeeded List.length]. exact H3.
           ++ rewrite (execute_init_loop_connected start_time rest s1 u Hsome).
              cbn [result_of state_after calls fst snd].
              split; [intros _; congruence |]. split; [discriminate |].
              rewrite !filter_app, !length_app, Hps. cbn. lia.
        -- cbn [result_of state_after calls fst snd].
           split; [discriminate |]. split; [discriminate |].
           destruct Hc as (_ & _ & Hf & _).
           rewrite filter_app, length_app, Hps, Hf. cbn. lia.
      * rewrite Ei. cbn. repeat split; try discriminate; lia.
Qed.

Lemma connect_postcondition_witness :
  _uav (state_after (execute_init_cb (of_int 0) [soft_failure; succeeding] tracker))
  <> None.
Proof.
  apply (proj1 (connect_postcondition (of_int 0) [soft_failure; succeeding] tracker)).
  reflexivity.
Defined.

(** X10: on a server built by [__init__], the first check point at which a
    preempt is pending or the deadline has passed ends the callback with
    AttributeError (the name in the log message is missing): no call is
    made there, in particular no further attempt to connect. *)
Theorem connect_cancel_raises (start_time : float) (p : probe)
    (rest : list probe) (s : PIDActionServer) :
  _uav s = None -> _action_name s = None ->
  preempt_requested p = true \/
  fgt (fsub (clock p) start_time) (of_int deadline) = true ->
  execute_init_cb start_time (p :: rest) s =
  (Raise (AttributeError "_action_name"), s, []).
Proof.
  intros Hu Hn Hc. unfold execute_init_cb.
  rewrite (execute_init_loop_cons _ _ _ _ Hu).
  rewrite (init_iteration_cancel start_time p s Hn Hc). reflexivity.
Qed.

Lemma connect_cancel_raises_witness :
  execute_init_cb (of_int 0) [too_late; succeeding] tracker =
  (Raise (AttributeError "_action_name"), tracker, []).
Proof.
  apply (connect_cancel_raises (of_int 0) too_late [succeeding] tracker);
    [reflexivity | reflexivity | right; reflexivity].
Defined.

(** X11: when the vehicle connects but [streamon()] raises, the callback
    raises with the vehicle already stored; a later call of
    [execute_init_cb] then returns at once, whatever the probes: no attempt,
    no [streamon()], no [set_succeeded()]. *)
Theorem streamon_failure_leaves_connected (start_time start_time' : float)
    (p : probe) (rest script : list probe) (u : Uav) (t : float)
    (s : PIDActionServer) :
  _uav s = None -> quiet start_time p -> connect p = Connect_ok u t false ->
  let first := execute_init_cb start_time (p :: rest) s in
  result_of first = Raise DriverError /\
  _uav (state_after first) = Some u /\
  execute_init_cb start_time' script (state_after first)
  = (Ok Returned, state_after first, []).
Proof.
  intros Hu Hq Hc first. unfold first, execute_init_cb.
  rewrite (execute_init_loop_cons _ _ _ _ Hu).
  rewrite (init_iteration_quiet _ _ _ Hq). unfold attempt. rewrite Hc.
  cbn [result_of state_after fst snd]. repeat split.
  apply (execute_init_loop_connected start_time' script _ u). reflexivity.
Qed.

Lemma streamon_failure_leaves_connected_witness :
  result_of (execute_init_cb (of_int 0) [no_stream] tracker) = Raise DriverError /\
  _uav (state_after (execute_init_cb (of_int 0) [no_stream] tracker)) = Some Tello /\
  execute_init_cb (of_int 5) [succeeding]
    (state_after (execute_init_cb (of_int 0) [no_stream] tracker))
  = (Ok Returned, state_after (execute_init_cb (of_int 0) [no_stream] tracker), []).
Proof.
  apply (streamon_failure_leaves_connected (of_int 0) (of_int 5) no_stream []
           [succeeding] Tello (of_int 1) tracker).
  - reflexivity.
  - split; reflexivity.
  - reflexivity.
Defined.

(** ** More on the frame queue *)

Section QueueMore.

Lemma spin_prefix (l r : list frame) (m : Z) :
  spin (List.length l) {| PyQueue.maxsize := m; PyQueue.items := l ++ r |}
  = ({| PyQueue.maxsize := m; PyQueue.items := r |}, l).
Proof.
  induction l as [| f l IH]; [reflexivity |].
  cbn [List.length spin]. unfold run_iteration, PyQueue.empty, PyQueue.qsize,
    PyQueue.get. cbn [PyQueue.items PyQueue.maxsize app].
  change (Z.of_nat (List.length (f :: l ++ r)) =? 0) with false. cbn [negb].
  rewrite IH. reflexivity.
Qed.

Lemma thread_step_inv (s : threads) (e : thread_event) :
  threads_inv s -> threads_inv (thread_step s e).
Proof.
  intros [Hm Hb Hr Hi Hk].
  destruct s as [[mx its] hold tk tkn stk].
  unfold PyQueue.qsize in *. cbn in Hm, Hb, Hr, Hi, Hk. subst mx stk.
  destruct e as [imgmsg | | |]; cbn [thread_step shared holding taking taken stuck].
  - destruct hold as [f |]; [split; cbn; auto |].
    destruct (decoded imgmsg) as [img |]; [| split; cbn; auto].
    unfold PyQueue.full, PyQueue.qsize. cbn [PyQueue.maxsize PyQueue.items].
    change (0 <? queue_capacity) with true. cbn [andb].
    destruct (Z.leb_spec queue_capacity (Z.of_nat (List.length its)));
      cbn [negb]; split; unfold PyQueue.qsize; cbn; auto.
  - destruct hold as [f |]; [| split; cbn; auto].
    assert (Hlt : Z.of_nat (List.length its) < queue_capacity)
      by (apply Hr; discriminate).
    unfold PyQueue.put, PyQueue.full, PyQueue.qsize.
    cbn [PyQueue.maxsize PyQueue.items].
    change (0 <? queue_capacity) with true. cbn [andb].
    destruct (Z.leb_spec queue_capacity (Z.of_nat (List.length its))); [lia |].
    split; unfold PyQueue.qsize; cbn [shared holding taking stuck PyQueue.items
                                      PyQueue.maxsize]; auto.
    + rewrite length_app, Nat2Z.inj_add. cbn [List.length]. lia.
    + intros H'. contradiction H'. reflexivity.
    + intros Ht. specialize (Hi Ht).
      rewrite length_app, Nat2Z.inj_add. cbn [List.length]. lia.
  - unfold PyQueue.empty, PyQueue.qsize. cbn [PyQueue.items].
    destruct tk; cbn [negb andb]; [split; cbn; auto |].
    destruct (Z.eqb_spec (Z.of_nat (List.length its)) 0); cbn [negb];
      split; unfold PyQueue.qsize; cbn; auto; intros _; lia.
  - destruct tk; [| split; cbn; auto].
    specialize (Hi eq_refl).
    unfold PyQueue.get. cbn [PyQueue.items PyQueue.maxsize].
    destruct its as [| f rest]; [cbn in Hi; lia |].
    cbn [List.length] in Hb, Hr.
    split; unfold PyQueue.qsize; cbn [shared holding taking stuck PyQueue.items
                                      PyQueue.maxsize]; auto.
    + lia.
    + intros Hh. specialize (Hr Hh). lia.
    + discriminate.
Qed.

Lemma threads_run_inv (evs : list thread_event) :
  threads_inv (threads_run evs threads_init).
Proof.
  induction evs as [| e evs IH] using rev_ind.
  - split; cbn; try reflexivity; try discriminate;
      intros H; contradiction H; reflexivity.
  - unfold threads_run. rewrite fold_left_app. cbn [fold_left].
    apply thread_step_inv. exact IH.
Qed.

End QueueMore.

(** X12: a frame offered while the queue is not full is enqueued behind the
    frames already there, and the consumer's next iterations take those
    frames and then it, in that order, leaving the queue empty. *)
Theorem enqueue_then_dequeue (q : PyQueue.Queue frame) (imgmsg : Imgmsg)
    (rgb_img : list Z) :
  PyQueue.full q = false -> decoded imgmsg = Some rgb_img ->
  let f := (rgb_img, stamp imgmsg) in
  image_callback q imgmsg
  = ({| PyQueue.maxsize := PyQueue.maxsize q;
        PyQueue.items := PyQueue.items q ++ [f] |}, Enqueued f) /\
  spin (List.length (PyQueue.items q) + 1) (fst (image_callback q imgmsg))
  = ({| PyQueue.maxsize := PyQueue.maxsize q; PyQueue.items := [] |},
     PyQueue.items q ++ [f]).
Proof.
  intros Hf Hd f. unfold image_callback, PyQueue.put. rewrite Hd, Hf.
  cbn [negb fst]. split; [reflexivity |].
  pose proof (spin_prefix (PyQueue.items q ++ [f]) [] (PyQueue.maxsize q)) as H.
  rewrite length_app, app_nil_r in H. exact H.
Qed.

Lemma enqueue_then_dequeue_witness :
  spin 1 (fst (image_callback image_queue_init (arrival 1)))
  = ({| PyQueue.maxsize := 5; PyQueue.items := [] |}, [([1], 1)]).
Proof.
  apply (enqueue_then_dequeue image_queue_init (arrival 1) [1]); reflexivity.
Defined.

(** X13: with the producer's [full()] check and [put], and the consumer's
    [empty()] check and [get], taken as separate steps interleaved in any
    order, no [put] and no [get] ever has to block, and the queue never
    holds more than 5 frames. *)
Theorem check_then_act_never_blocks (evs : list thread_event) :
  let s := threads_run evs threads_init in
  stuck s = false /\ PyQueue.qsize (shared s) <= queue_capacity.
Proof.
  intros s. destruct (threads_run_inv evs) as [_ Hb _ _ Hk]. split; assumption.
Qed.

Section Plan.

Lemma composite_cases (publish control : Smach.outcome) :
  composite publish control =
  if Smach.outcome_eqb publish Smach.aborted then Smach.aborted
  else Smach.succeeded.
Proof. destruct publish, control; reflexivity. Qed.

Lemma con_rounds_spec (rounds : list (Smach.outcome * Smach.outcome)) :
  con_rounds rounds =
  if existsb (fun r => Smach.outcome_eqb (fst r) Smach.aborted) rounds
  then Ended "aborted" else In_state "CON".
Proof.
  induction rounds as [| [publish control] rest IH]; [reflexivity |].
  cbn [con_rounds existsb fst]. rewrite composite_cases.
  destruct publish; cbn [Smach.outcome_eqb orb]; first [exact IH | reflexivity].
Qed.

End Plan.

(** X14: once CONNECT has succeeded, the plan ends exactly when PUBLISH
    reports [aborted] in some round of CON, and then with the outcome
    [aborted]; otherwise it is still in CON.  It never ends with
    [succeeded] or [preempted], whatever CONTROL_MOTOR reports. *)
Theorem plan_ends_only_aborted (rounds : list (Smach.outcome * Smach.outcome)) :
  sm_execute Smach.succeeded rounds =
  (if existsb (fun r => Smach.outcome_eqb (fst r) Smach.aborted) rounds
   then Ended "aborted" else In_state "CON") /\
  sm_execute Smach.succeeded rounds <> Ended "succeeded" /\
  sm_execute Smach.succeeded rounds <> Ended "preempted".
Proof.
  assert (H : sm_execute Smach.succeeded rounds = con_rounds rounds)
    by reflexivity.
  rewrite H, con_rounds_spec.
  destruct (existsb _ rounds); repeat split; discriminate.
Qed.

Section StreamFacts.

Variable issubclass : exc_class -> exc_class -> bool.

Lemma stream_loop_good (u : Uav) (goods rest : list stream_probe) :
  Forall good_frame goods ->
  forall k : Z,
  stream_loop issubclass (Some u) k (goods ++ rest)
  = prepend (flat_map (fun f => [S_publish f; S_sleep]) (frames_of goods))
            (stream_loop issubclass (Some u) (k + Z.of_nat (List.length goods)) rest).
Proof.
  induction 1 as [| p goods (Hs & Hf & Ht) _ IH]; intros k.
  - cbn [app List.length frames_of flat_map]. rewrite Z.add_0_r.
    destruct (stream_loop issubclass (Some u) k rest) as [[e t] n]. reflexivity.
  - cbn [app stream_loop frames_of]. rewrite Hs, Ht.
    destruct (frame_read p) as [img |]; [| contradiction Hf; reflexivity].
    rewrite IH. cbn [List.length flat_map].
    replace (k + 1 + Z.of_nat (List.length goods))
      with (k + Z.of_nat (S (List.length goods))) by lia.
    destruct (stream_loop issubclass (Some u) _ rest) as [[e t] n]. reflexivity.
Qed.

End StreamFacts.

(** X15: on a connected server, frames read and published without error are
    published in the order read, one per iteration; the first missing frame
    ends the callback by [break]: it returns normally after logging
    "Frame is None or return code error.", with [pub_counter] the number of
    frames published, and the probes that follow are not used. *)
Theorem stream_until_missing_frame (issubclass : exc_class -> exc_class -> bool)
    (s : PIDActionServer) (u : Uav) (goods : list stream_probe)
    (p : stream_probe) (rest : list stream_probe) :
  _uav s = Some u -> Forall good_frame goods ->
  is_shutdown p = false -> frame_read p = None ->
  execute_start_stream_cb issubclass s (goods ++ p :: rest) =
  (Stream_returned,
   flat_map (fun f => [S_publish f; S_sleep]) (frames_of goods)
   ++ [S_loginfo "Frame is None or return code error."],
   Z.of_nat (List.length goods)).
Proof.
  intros Hu Hg Hs Hf. unfold execute_start_stream_cb. rewrite Hu.
  rewrite (stream_loop_good issubclass u goods (p :: rest) Hg).
  cbn [stream_loop]. rewrite Hs, Hf. reflexivity.
Qed.

Lemma stream_until_missing_frame_witness :
  execute_start_stream_cb (fun _ _ => false) (set_uav (Some Tello) tracker)
    ([with_frame [1]; with_frame [2]] ++ without_frame :: [with_frame [3]]) =
  (Stream_returned,
   [S_publish [1]; S_sleep; S_publish [2]; S_sleep;
    S_loginfo "Frame is None or return code error."], 2).
Proof.
  apply (stream_until_missing_frame (fun _ _ => false)
           (set_uav (Some Tello) tracker) Tello
           [with_frame [1]; with_frame [2]] without_frame [with_frame [3]]);
    try reflexivity.
  repeat constructor; discriminate.
Defined.

(** X16: the STREAM activity started on a server that is not connected
    raises at its first iteration (the vehicle is [None]) and publishes
    nothing, unless shutdown is already requested. *)
Theorem stream_requires_connection (issubclass : exc_class -> exc_class -> bool)
    (s : PIDActionServer) (p : stream_probe) (rest : list stream_probe) :
  _uav s = None -> is_shutdown p = false ->
  execute_start_stream_cb issubclass s (p :: rest)
  = (Stream_attribute_error, [], 0).
Proof.
  intros Hu Hs. unfold execute_start_stream_cb. rewrite Hu.
  cbn [stream_loop]. rewrite Hs. reflexivity.
Qed.

Lemma stream_requires_connection_witness :
  execute_start_stream_cb (fun _ _ => false) tracker [with_frame [1]]
  = (Stream_attribute_error, [], 0).
Proof.
  apply (stream_requires_connection (fun _ _ => false) tracker
           (with_frame [1]) []); reflexivity.
Defined.

Section NodeLife.

Lemma node_run_loop_frames (fs : list frame) :
  forall (n : BaseInferenceNode) (k : Z) (topic : string) (rest : list frame),
  PyQueue.items (node_image_queue n) = fs ++ rest ->
  node_pub_counter n = Some k -> node_inference_topic n = Some topic ->
  node_run_loop (List.length fs) n =
  (Node_ok,
   with_pub_counter (k + Z.of_nat (List.length fs))
     (with_queue {| PyQueue.maxsize := PyQueue.maxsize (node_image_queue n);
                    PyQueue.items := rest |} n),
   publications k topic fs).
Proof.
  induction fs as [| f fs IH]; intros n k topic rest Hq Hk Ht.
  - cbn [List.length node_run_loop publications]. rewrite Z.add_0_r.
    destruct n as [[mx its] h mi mn tp mt pc]. cbn in *. subst. reflexivity.
  - cbn [List.length node_run_loop publications].
    unfold node_run_iteration, run_iteration, PyQueue.empty, PyQueue.qsize,
      PyQueue.get. rewrite Hq. cbn [app].
    change (Z.of_nat (List.length (f :: fs ++ rest)) =? 0) with false.
    cbn [negb with_queue node_pub_counter node_inference_topic].
    rewrite Hk, Ht.
    rewrite (IH _ (k + 1) topic rest); [| reflexivity | reflexivity | exact Ht].
    cbn [with_pub_counter with_queue node_image_queue PyQueue.maxsize
         node_history node_model_info node_model_name node_inference_topic
         node_inference_msg_type].
    replace (k + 1 + Z.of_nat (List.length fs))
      with (k + Z.of_nat (S (List.length fs))) by lia.
    reflexivity.
Qed.

End NodeLife.



(** X18: on a node whose [init()] did not run to its end ([pub_counter] not
    created: [init()] not called, or it raised, or ROSInitException was
    dropped), the first iteration of [run] that finds a frame raises
    AttributeError after taking the frame out of the queue: the frame is
    lost and nothing is published. *)
Theorem run_before_init_loses_frame (n : BaseInferenceNode) (f : frame)
    (rest : list frame) :
  node_pub_counter n = None ->
  PyQueue.items (node_image_queue n) = f :: rest ->
  let r := node_run_iteration n in
  fst (fst r) = Node_raise (Node_AttributeError "pub_counter") /\
  PyQueue.items (node_image_queue (snd (fst r))) = rest /\
  snd r = [].
Proof.
  intros Hk Hq. unfold node_run_iteration, run_iteration, PyQueue.empty,
    PyQueue.qsize, PyQueue.get. rewrite Hq.
  change (Z.of_nat (List.length (f :: rest)) =? 0) with false.
  cbn [negb with_queue node_pub_counter]. rewrite Hk. repeat split.
Qed.

Lemma run_before_init_loses_frame_witness :
  fst (fst (node_run_iteration pending_node))
  = Node_raise (Node_AttributeError "pub_counter") /\
  PyQueue.items (node_image_queue (snd (fst (node_run_iteration pending_node)))) = [] /\
  snd (node_run_iteration pending_node) = [].
Proof.
  apply (run_before_init_loses_frame pending_node ([1], 1) []); reflexivity.
Defined.

(** X19: after [load_model(name)] (the model information naming its message
    type) and [init()], whatever frames wait in the queue are published by
    as many iterations of [run] in the order they were queued, each
    announced with its index counted from 0 and the topic
    "/acl_inference/<name>"; [pub_counter] ends as their number. *)
Theorem run_publishes_in_order (name msg_type : string) (now : Z)
    (fs : list frame) (n : BaseInferenceNode) :
  PyQueue.items (node_image_queue n) = fs ->
  let ready := snd (fst (node_init_cb true now (load_model name (Some msg_type) n))) in
  fst (fst (node_init_cb true now (load_model name (Some msg_type) n))) = Node_ok /\
  fst (fst (node_run_loop (List.length fs) ready)) = Node_ok /\
  snd (node_run_loop (List.length fs) ready)
  = publications 0 ("/acl_inference/" ++ name)%string fs /\
  node_pub_counter (snd (fst (node_run_loop (List.length fs) ready)))
  = Some (Z.of_nat (List.length fs)) /\
  PyQueue.items (node_image_queue (snd (fst (node_run_loop (List.length fs) ready))))
  = [].
Proof.
  intros Hq ready. split; [reflexivity |].
  assert (Hrun := node_run_loop_frames fs ready 0 ("/acl_inference/" ++ name)%string []).
  rewrite Hrun; [repeat split | | reflexivity | reflexivity].
  cbn. rewrite app_nil_r. exact Hq.
Qed.

Lemma run_publishes_in_order_witness :
  snd (node_run_loop 2
         (snd (fst (node_init_cb true 7
                      (load_model "face_detection" (Some "FaceDetection"%string) two_frames)))))
  = [N_print 0 "/acl_inference/face_detection"; N_publish ([1], 1); N_sleep;
     N_print 1 "/acl_inference/face_detection"; N_publish ([2], 2); N_sleep].
Proof.
  apply (run_publishes_in_order "face_detection" "FaceDetection" 7
           [([1], 1); ([2], 2)] two_frames).
  reflexivity.
Defined.
